(** * Artemis: manuscript-version detection and deposit approval

    A shallow embedding of [artemis.py]: the result accumulator
    [ArtemisResult], the fuzzy text search of [BaseParser], the heuristic
    tests and the two workflows [DocxParser.parse] and [PdfParser.parse].

    Conventions of the embedding.
    - Python [str] is [string]; a character is a code point below 256.
    - A value that may be [None] is an [option]; a tri-state test result is
      [option bool].
    - A ratio is a rational number; [int] truncates it as it truncates the
      float.
    - A call that may raise returns a [result]; the class-level attributes
      of [ArtemisResult], which every instance shares, live in an explicit
      store that is threaded through the workflows.
    - Third-party collaborators (the [regex] engine outside the literal
      fragment, [difflib], [requests], text and metadata extraction,
      CERMINE, the logo database) are parameters of the development. *)

From Stdlib Require Import ZArith QArith String Ascii List Bool Lia DecimalString.
From stdpp Require Import base option list gmap strings.

Local Open Scope string_scope.

(** ** Exceptions and results *)

Inductive exn : Type :=
  | TypeError
  | AttributeError
  | KeyError
  | RegexError
  | ConnectionError
  | OtherError (msg : string).

Inductive result (A : Type) : Type :=
  | Ret (a : A)
  | Raises (e : exn).

Arguments Ret {A} a.
Arguments Raises {A} e.

Definition exn_is_TypeError (e : exn) : bool :=
  match e with TypeError => true | _ => false end.

(** ** Python strings *)

Module PyStr.

Definition code (c : ascii) : nat := nat_of_ascii c.

Definition in_range (lo hi : nat) (c : ascii) : bool :=
  (lo <=? code c)%nat && (code c <=? hi)%nat.

(** [str.isspace] on the code points below 256. *)
Definition isspace (c : ascii) : bool :=
  in_range 9 13 c || in_range 28 32 c
  || (code c =? 133)%nat || (code c =? 160)%nat.

(** Upper-case letters that have a lower-case partner below 256:
    [A]-[Z] and the Latin-1 capitals except the multiplication sign. *)
Definition isupper (c : ascii) : bool :=
  in_range 65 90 c
  || (in_range 192 222 c && negb (code c =? 215)%nat).

Definition lower_char (c : ascii) : ascii :=
  if isupper c then ascii_of_nat (code c + 32) else c.

(** [str.lower] *)
Fixpoint lower (s : string) : string :=
  match s with
  | EmptyString => EmptyString
  | String c r => String (lower_char c) (lower r)
  end.

Definition len (s : string) : nat := String.length s.

(** [if s:] *)
Definition truthy (s : string) : bool :=
  match s with EmptyString => false | _ => true end.

Definition opt_truthy (o : option string) : bool :=
  match o with Some s => truthy s | None => false end.

(** [s.replace('\n', ' ')] *)
Fixpoint replace_newline (s : string) : string :=
  match s with
  | EmptyString => EmptyString
  | String c r =>
      String (if (code c =? 10)%nat then " "%char else c) (replace_newline r)
  end.

(** [s.replace('  ', ' ')]: one left-to-right pass over the
    non-overlapping occurrences of two spaces. *)
Fixpoint replace_two_spaces (s : string) : string :=
  match s with
  | EmptyString => EmptyString
  | String c r =>
      match r with
      | String d r' =>
          if Ascii.eqb c " " && Ascii.eqb d " "
          then String " " (replace_two_spaces r')
          else String c (replace_two_spaces r)
      | EmptyString => String c EmptyString
      end
  end.

Fixpoint startswith (p s : string) : bool :=
  match p, s with
  | EmptyString, _ => true
  | String a p', String b s' => Ascii.eqb a b && startswith p' s'
  | String _ _, EmptyString => false
  end.

(** [p in s] *)
Fixpoint contains (p s : string) : bool :=
  startswith p s ||
  match s with
  | EmptyString => false
  | String _ s' => contains p s'
  end.

(** ["{}".format(n)] for an [int] *)
Definition format_int (z : Z) : string :=
  NilZero.string_of_int (Z.to_int z).

(** [s[:n]] *)
Fixpoint take (n : nat) (s : string) : string :=
  match n, s with
  | S n', String c r => String c (take n' r)
  | _, _ => EmptyString
  end.

End PyStr.

(** ** The [regex] module, as far as the code relies on it *)

Module Regex.

(** Characters with a special meaning in a pattern ([_METACHARS]). *)
Definition metachars : string := "()[]{}?*+|^$\.-#&~".

Fixpoint mem_char (c : ascii) (s : string) : bool :=
  match s with
  | EmptyString => false
  | String d r => Ascii.eqb c d || mem_char c r
  end.

Definition is_special (c : ascii) : bool :=
  mem_char c metachars || PyStr.isspace c.

(** [regex.escape]: a backslash before every special character. *)
Fixpoint escape (s : string) : string :=
  match s with
  | EmptyString => EmptyString
  | String c r =>
      if is_special c then String "\" (String c (escape r))
      else String c (escape r)
  end.

(** A match object: [m.start()], [m.end()] and [m.group()]. *)
Record match_obj : Type := MatchObj {
  m_start : nat;
  m_end : nat;
  m_group : string
}.

(** The literal fragment of the pattern language: ordinary characters,
    white space and backslash-escaped special characters.  The result is
    the text such a pattern stands for; [None] for every pattern that
    uses anything else. *)
Fixpoint parse_literal (p : string) : option string :=
  match p with
  | EmptyString => Some EmptyString
  | String c r =>
      if Ascii.eqb c "\" then
        match r with
        | String d r' =>
            if is_special d then String d <$> parse_literal r' else None
        | EmptyString => None
        end
      else if is_special c then
        (if PyStr.isspace c then String c <$> parse_literal r else None)
      else String c <$> parse_literal r
  end.

(** Does the text start with the literal, ignoring case? *)
Fixpoint prefix_ci (lit s : string) : bool :=
  match lit, s with
  | EmptyString, _ => true
  | String a lit', String b s' =>
      Ascii.eqb (PyStr.lower_char a) (PyStr.lower_char b) && prefix_ci lit' s'
  | String _ _, EmptyString => false
  end.

(** Leftmost occurrence of the literal at or after offset [pos]. *)
Fixpoint search_literal_from (lit s : string) (pos : nat)
  : option match_obj :=
  if prefix_ci lit s
  then Some (MatchObj pos (pos + PyStr.len lit) (PyStr.take (PyStr.len lit) s))
  else match s with
       | EmptyString => None
       | String _ s' => search_literal_from lit s' (S pos)
       end.

Definition search_literal (lit s : string) : option match_obj :=
  search_literal_from lit s 0.

(** The number of errors the fuzzy constraint [{e<limit}] permits:
    fewer than [limit]. *)
Definition permitted_errors (limit : Z) : Z := (limit - 1)%Z.

End Regex.

(** ** Values recorded by the tests *)

(** The dictionary returned by [find_match_in_extracted_text]. *)
Record MatchResult : Type := mkMatchResult {
  mr_match : string;
  mr_in_expected_position : bool
}.

(** A record of the logo database ([utils.logos.PublisherLogo]): its name
    and [metadata["indicate_ms_versions"]]. *)
Record PublisherLogo : Type := mkLogo {
  logo_name : string;
  indicate_ms_versions : list string
}.

(** An entry of [ALL_CC_LICENCES]. *)
Record CCLicence : Type := mkLicence {
  cc_url : string;
  cc_long_name : string;
  cc_short_name : string
}.

(** What [append_test_result] may store under a test's name. *)
Inductive test_value : Type :=
  | VTri (b : option bool)
  | VTags (tags : list string)
  | VMatch (m : option MatchResult)
  | VLogos (logos : list PublisherLogo).

(** ** The environment: constants of [utils] and third-party services *)

Record Env : Type := mkEnv {
  (** [utils.constants] *)
  c_SMUR : string;
  c_AM : string;
  c_P : string;
  c_VOR : string;
  (** [utils.patterns] *)
  c_DOI_PATTERN : string;
  c_ALL_CC_LICENCES : list CCLicence;
  (** [regex.search(pattern, text, flags=regex.IGNORECASE)] for the patterns
      outside the literal fragment *)
  regex_engine : string -> string -> result (option Regex.match_obj);
  (** [SequenceMatcher(None, a, b).ratio()] *)
  similarity : string -> string -> Q;
  (** [requests.get(url, ...).ok]; raises when the request fails *)
  http_get_ok : string -> result bool
}.

(** ** The file under evaluation, as the extraction steps deliver it *)

Record Parser : Type := mkParser {
  file_name : string;
  dec_ms_title : option string;
  dec_version : option string;
  (** [**kwargs] of the constructor *)
  metadata : gmap string string;
  (** set by [extract_file_metadata] *)
  file_metadata : gmap string string;
  (** set by [extract_text] *)
  extracted_text : string;
  (** set by [cermine_file] and [parse_cermxml] *)
  cerm_doi : option string;
  cerm_title : option string;
  (** [os.listdir(images_folder)] *)
  image_files : list string;
  (** the records of the logo database that [test_hash_match] accepts for
      an extracted image, in the order [detect_publisher_logos] meets them *)
  matching_logos : list PublisherLogo
}.

Definition NUMBER_OF_CHARACTERS_IN_ONE_PAGE : nat := 2600.

Definition PUBLISHER_PDF_METADATA_TAGS : list string :=
  [ "/CrossMarkDomains#5B1#5D";
    "/CrossMarkDomains#5B2#5D";
    "/CrossmarkDomainExclusive";
    "/CrossmarkMajorVersionDate";
    "/doi";
    "/ElsevierWebPDFSpecifications";
    "/Keywords" ].

Definition DOI_BASE_URL : string := "https://doi.org/".

(** ** [ArtemisResult] *)

(** The two mutable class attributes.  No instance ever rebinds them, so
    every instance reads and mutates these same two objects. *)
Record ClassAttrs : Type := mkClassAttrs {
  possible_versions : list string;
  test_results : gmap string test_value
}.

(** The attributes an instance reads; each starts at the class default
    and is rebound on the instance by assignment. *)
Record ArtemisResult : Type := mkR {
  input_filename : string;
  smur_prob : Z;
  am_prob : Z;
  p_prob : Z;
  vor_oa_prob : Z;
  vor_pw_prob : Z;
  sanity_check : option bool;
  approve_deposit : bool;
  reason : option string;
  long_enough : option bool;
  title_match_file_metadata : option bool;
  title_match_extracted_text : option bool;
  extracted_publisher_tags_in_file_metadata : option (list string);
  valid_doi_in_extracted_text : option bool;
  cc_match_extracted_text : option MatchResult;
  valid_doi_in_cermine_xml : option bool;
  title_match_cermine_xml : option bool;
  image_on_first_page : option bool;
  detected_logos : option (list PublisherLogo)
}.

(** [ArtemisResult(input_filename)] *)
Definition new_result (fname : string) : ArtemisResult :=
  {| input_filename := fname;
     smur_prob := 194; am_prob := 5182; p_prob := 32;
     vor_oa_prob := 3286; vor_pw_prob := 866;
     sanity_check := None;
     approve_deposit := false;
     reason := None;
     long_enough := None;
     title_match_file_metadata := None;
     title_match_extracted_text := None;
     extracted_publisher_tags_in_file_metadata := None;
     valid_doi_in_extracted_text := None;
     cc_match_extracted_text := None;
     valid_doi_in_cermine_xml := None;
     title_match_cermine_xml := None;
     image_on_first_page := None;
     detected_logos := None |}.

(** Attribute assignment [r.x = v], one function per attribute. *)
Definition set_probs (a b c d e : Z) (r : ArtemisResult) : ArtemisResult :=
  let 'mkR f0 _ _ _ _ _ f6 f7 f8 f9 f10 f11 f12 f13 f14 f15 f16 f17 f18 := r in
  mkR f0 a b c d e f6 f7 f8 f9 f10 f11 f12 f13 f14 f15 f16 f17 f18.
Definition set_smur_prob (v : Z) (r : ArtemisResult) : ArtemisResult :=
  let 'mkR f0 _ f2 f3 f4 f5 f6 f7 f8 f9 f10 f11 f12 f13 f14 f15 f16 f17 f18 := r in
  mkR f0 v f2 f3 f4 f5 f6 f7 f8 f9 f10 f11 f12 f13 f14 f15 f16 f17 f18.
Definition set_am_prob (v : Z) (r : ArtemisResult) : ArtemisResult :=
  let 'mkR f0 f1 _ f3 f4 f5 f6 f7 f8 f9 f10 f11 f12 f13 f14 f15 f16 f17 f18 := r in
  mkR f0 f1 v f3 f4 f5 f6 f7 f8 f9 f10 f11 f12 f13 f14 f15 f16 f17 f18.
Definition set_sanity_check (v : option bool) (r : ArtemisResult) : ArtemisResult :=
  let 'mkR f0 f1 f2 f3 f4 f5 _ f7 f8 f9 f10 f11 f12 f13 f14 f15 f16 f17 f18 := r in
  mkR f0 f1 f2 f3 f4 f5 v f7 f8 f9 f10 f11 f12 f13 f14 f15 f16 f17 f18.
Definition set_approve_deposit (v : bool) (r : ArtemisResult) : ArtemisResult :=
  let 'mkR f0 f1 f2 f3 f4 f5 f6 _ f8 f9 f10 f11 f12 f13 f14 f15 f16 f17 f18 := r in
  mkR f0 f1 f2 f3 f4 f5 f6 v f8 f9 f10 f11 f12 f13 f14 f15 f16 f17 f18.
Definition set_reason (v : string) (r : ArtemisResult) : ArtemisResult :=
  let 'mkR f0 f1 f2 f3 f4 f5 f6 f7 _ f9 f10 f11 f12 f13 f14 f15 f16 f17 f18 := r in
  mkR f0 f1 f2 f3 f4 f5 f6 f7 (Some v) f9 f10 f11 f12 f13 f14 f15 f16 f17 f18.
Definition set_long_enough (v : option bool) (r : ArtemisResult) : ArtemisResult :=
  let 'mkR f0 f1 f2 f3 f4 f5 f6 f7 f8 _ f10 f11 f12 f13 f14 f15 f16 f17 f18 := r in
  mkR f0 f1 f2 f3 f4 f5 f6 f7 f8 v f10 f11 f12 f13 f14 f15 f16 f17 f18.
Definition set_title_match_file_metadata (v : option bool) (r : ArtemisResult) : ArtemisResult :=
  let 'mkR f0 f1 f2 f3 f4 f5 f6 f7 f8 f9 _ f11 f12 f13 f14 f15 f16 f17 f18 := r in
  mkR f0 f1 f2 f3 f4 f5 f6 f7 f8 f9 v f11 f12 f13 f14 f15 f16 f17 f18.
Definition set_title_match_extracted_text (v : option bool) (r : ArtemisResult) : ArtemisResult :=
  let 'mkR f0 f1 f2 f3 f4 f5 f6 f7 f8 f9 f10 _ f12 f13 f14 f15 f16 f17 f18 := r in
  mkR f0 f1 f2 f3 f4 f5 f6 f7 f8 f9 f10 v f12 f13 f14 f15 f16 f17 f18.
Definition set_extracted_publisher_tags_in_file_metadata (v : list string) (r : ArtemisResult) : ArtemisResult :=
  let 'mkR f0 f1 f2 f3 f4 f5 f6 f7 f8 f9 f10 f11 _ f13 f14 f15 f16 f17 f18 := r in
  mkR f0 f1 f2 f3 f4 f5 f6 f7 f8 f9 f10 f11 (Some v) f13 f14 f15 f16 f17 f18.
Definition set_valid_doi_in_extracted_text (v : option bool) (r : ArtemisResult) : ArtemisResult :=
  let 'mkR f0 f1 f2 f3 f4 f5 f6 f7 f8 f9 f10 f11 f12 _ f14 f15 f16 f17 f18 := r in
  mkR f0 f1 f2 f3 f4 f5 f6 f7 f8 f9 f10 f11 f12 v f14 f15 f16 f17 f18.
Definition set_cc_match_extracted_text (v : option MatchResult) (r : ArtemisResult) : ArtemisResult :=
  let 'mkR f0 f1 f2 f3 f4 f5 f6 f7 f8 f9 f10 f11 f12 f13 _ f15 f16 f17 f18 := r in
  mkR f0 f1 f2 f3 f4 f5 f6 f7 f8 f9 f10 f11 f12 f13 v f15 f16 f17 f18.
Definition set_valid_doi_in_cermine_xml (v : option bool) (r : ArtemisResult) : ArtemisResult :=
  let 'mkR f0 f1 f2 f3 f4 f5 f6 f7 f8 f9 f10 f11 f12 f13 f14 _ f16 f17 f18 := r in
  mkR f0 f1 f2 f3 f4 f5 f6 f7 f8 f9 f10 f11 f12 f13 f14 v f16 f17 f18.
Definition set_title_match_cermine_xml (v : option bool) (r : ArtemisResult) : ArtemisResult :=
  let 'mkR f0 f1 f2 f3 f4 f5 f6 f7 f8 f9 f10 f11 f12 f13 f14 f15 _ f17 f18 := r in
  mkR f0 f1 f2 f3 f4 f5 f6 f7 f8 f9 f10 f11 f12 f13 f14 f15 v f17 f18.
Definition set_image_on_first_page (v : bool) (r : ArtemisResult) : ArtemisResult :=
  let 'mkR f0 f1 f2 f3 f4 f5 f6 f7 f8 f9 f10 f11 f12 f13 f14 f15 f16 _ f18 := r in
  mkR f0 f1 f2 f3 f4 f5 f6 f7 f8 f9 f10 f11 f12 f13 f14 f15 f16 (Some v) f18.
Definition set_detected_logos (v : list PublisherLogo) (r : ArtemisResult) : ArtemisResult :=
  let 'mkR f0 f1 f2 f3 f4 f5 f6 f7 f8 f9 f10 f11 f12 f13 f14 f15 f16 f17 _ := r in
  mkR f0 f1 f2 f3 f4 f5 f6 f7 f8 f9 f10 f11 f12 f13 f14 f15 f16 f17 (Some v).

(** The value [json_response] serialises. *)
Record Response : Type := mkResponse {
  resp_input_file : string;
  resp_approve_deposit : bool;
  resp_reason : option string;
  conf_SMUR : Q;
  conf_AM : Q;
  conf_P : Q;
  conf_VOR : Q;
  conf_VOR_oa : Q;
  conf_VOR_pw : Q;
  resp_sanity_check : option bool;
  resp_test_results : gmap string test_value
}.

(** ** Computations over the shared class attributes *)

Definition M (A : Type) : Type := ClassAttrs -> ClassAttrs * result A.

Definition ret {A} (a : A) : M A := fun s => (s, Ret a).

Definition raise {A} (e : exn) : M A := fun s => (s, Raises e).

Definition bind {A B} (m : M A) (k : A -> M B) : M B :=
  fun s => match m s with
           | (s', Ret a) => k a s'
           | (s', Raises e) => (s', Raises e)
           end.

(** A call that does not touch the class attributes. *)
Definition lift {A} (x : result A) : M A := fun s => (s, x).

Notation "x <- m ;; k" := (bind m (fun x => k))
  (at level 100, m at next level, right associativity).
Notation "m ;;; k" := (bind m (fun _ => k))
  (at level 100, right associativity).

Definition bind_result {A B} (x : result A) (k : A -> result B) : result B :=
  match x with
  | Ret a => k a
  | Raises e => Raises e
  end.

(** [l.remove(v)] for a [v] that occurs: the first occurrence goes. *)
Fixpoint remove_first (v : string) (l : list string) : list string :=
  match l with
  | [] => []
  | x :: l' => if String.eqb v x then l' else x :: remove_first v l'
  end.

(** [v in l] *)
Definition str_in (v : string) (l : list string) : bool :=
  existsb (String.eqb v) l.

(** The loop of [exclude_versions] on the list object itself. *)
Fixpoint exclude_from (e_list : list string) (pv : list string) : list string :=
  match e_list with
  | [] => pv
  | v :: rest =>
      exclude_from rest (if str_in v pv then remove_first v pv else pv)
  end.

(** [r.exclude_versions(e_list)] *)
Definition exclude_versions (e_list : list string) : M (list string) :=
  fun s =>
    let pv := exclude_from e_list (possible_versions s) in
    (mkClassAttrs pv (test_results s), Ret pv).

(** [r.append_test_result(test_func, result)], with [name] for
    [test_func.__name__] *)
Definition append_test_result (name : string) (v : test_value) : M unit :=
  fun s =>
    (mkClassAttrs (possible_versions s) (<[name := v]> (test_results s)), Ret tt).

(** [r.json_response()]: the value handed to [json.dumps], with the
    confidences as exact fractions; the serialisation to text is not
    modelled. *)
Definition json_response (r : ArtemisResult) : M Response :=
  fun s =>
    (s, Ret {| resp_input_file := input_filename r;
               resp_approve_deposit := approve_deposit r;
               resp_reason := reason r;
               conf_SMUR := smur_prob r # 100;
               conf_AM := am_prob r # 100;
               conf_P := p_prob r # 100;
               conf_VOR := (vor_oa_prob r + vor_pw_prob r) # 100;
               conf_VOR_oa := vor_oa_prob r # 100;
               conf_VOR_pw := vor_pw_prob r # 100;
               resp_sanity_check := sanity_check r;
               resp_test_results := test_results s |}).

Definition get_possible_versions : M (list string) :=
  fun s => (s, Ret (possible_versions s)).

(** Python truthiness of the values the workflows branch on. *)
Definition is_true (b : option bool) : bool :=
  match b with Some true => true | _ => false end.

Definition nonempty {A} (l : option (list A)) : bool :=
  match l with Some (_ :: _) => true | _ => false end.

Definition is_some {A} (o : option A) : bool :=
  match o with Some _ => true | None => false end.

(** ["{}".format(x)] for a string that may be [None] *)
Definition format_opt (o : option string) : string :=
  match o with Some s => s | None => "None" end.

(** [int(x)] for a float [x]: truncation towards zero. *)
Definition py_int (x : Q) : Z := Z.quot (Qnum x) (Zpos (Qden x)).

(** [not x] for a float [x] *)
Definition is_zero (x : Q) : bool := (Qnum x =? 0)%Z.

Section Parsers.

Context (E : Env).

Local Abbreviation SMUR := (c_SMUR E).
Local Abbreviation AM := (c_AM E).
Local Abbreviation P := (c_P E).
Local Abbreviation VOR := (c_VOR E).
Local Abbreviation DOI_PATTERN := (c_DOI_PATTERN E).
Local Abbreviation ALL_CC_LICENCES := (c_ALL_CC_LICENCES E).

(** [regex.search(pattern, text, flags=regex.IGNORECASE)] *)
Definition regex_search (pattern text : string)
  : result (option Regex.match_obj) :=
  match Regex.parse_literal pattern with
  | Some lit => Ret (Regex.search_literal lit text)
  | None => regex_engine E pattern text
  end.

(** *** [BaseParser] *)

(** The number that [find_match_in_extracted_text] writes after [e<]. *)
Definition error_limit (query : string) (allowed_error_ratio : Q) : Z :=
  py_int (allowed_error_ratio * inject_Z (Z.of_nat (PyStr.len query))).

(** The pattern handed to [regex.search]: the query itself when no
    error is allowed, else the query followed by a fuzzy constraint.
    [len(None)] raises [TypeError]. *)
Definition search_pattern (query : option string) (allowed_error_ratio : Q)
  : result (option string) :=
  if is_zero allowed_error_ratio then Ret query
  else match query with
       | Some q =>
           Ret (Some (q ++ "{e<"
                        ++ PyStr.format_int (error_limit q allowed_error_ratio)
                        ++ "}"))
       | None => Raises TypeError
       end.

(** The first three statements of [find_match_in_extracted_text]: the
    fall-back to the declared title, the escaping and the pattern. *)
Definition query_pattern (p : Parser) (query : option string)
    (escape_char : bool) (allowed_error_ratio : Q) : result (option string) :=
  let query := if PyStr.opt_truthy query then query else dec_ms_title p in
  bind_result
    (if escape_char then
       match query with
       | Some q => Ret (Some (Regex.escape q))
       | None => Raises TypeError
       end
     else Ret query)
    (fun query => search_pattern query allowed_error_ratio).

Definition continuous_text (p : Parser) : string :=
  PyStr.replace_two_spaces (PyStr.replace_newline (extracted_text p)).

Definition find_match_in_extracted_text (p : Parser) (query : option string)
    (escape_char : bool) (expected_span : nat * nat)
    (allowed_error_ratio : Q) : result (option MatchResult) :=
  bind_result (query_pattern p query escape_char allowed_error_ratio)
    (fun pattern =>
       match pattern with
       | None => Ret None
       | Some pat =>
           match regex_search pat (continuous_text p) with
           | Ret (Some m) =>
               Ret (Some {| mr_match := Regex.m_group m;
                            mr_in_expected_position :=
                              (fst expected_span <=? Regex.m_start m)%nat
                              && (Regex.m_end m <=? snd expected_span)%nat |})
           | Ret None => Ret None
           | Raises e => if exn_is_TypeError e then Ret None else Raises e
           end
       end).

Definition default_span : nat * nat := (0, 2600)%nat.

Definition find_doi_in_extracted_text (p : Parser) : result (option MatchResult) :=
  find_match_in_extracted_text p (Some DOI_PATTERN) false default_span 0%Q.

Fixpoint first_match (p : Parser) (queries : list (string * Q))
  : result (option MatchResult) :=
  match queries with
  | [] => Ret None
  | (q, error_ratio) :: rest =>
      bind_result (find_match_in_extracted_text p (Some q) false default_span error_ratio)
        (fun m => match m with
                  | Some _ => Ret m
                  | None => first_match p rest
                  end)
  end.

Definition find_cc_statement_in_extracted_text (p : Parser)
  : result (option MatchResult) :=
  first_match p
    (flat_map (fun l => [ (cc_url l, 0%Q); (cc_long_name l, (1 # 10)%Q); (cc_short_name l, 0%Q) ])
              ALL_CC_LICENCES).

Definition test_title_match_in_file_metadata (p : Parser) (title_key : string)
    (min_similarity : Q) : option bool :=
  match dec_ms_title p with
  | Some title =>
      if PyStr.truthy title then
        match file_metadata p !! title_key with
        | Some v => Some (Qle_bool min_similarity (similarity E v title))
        | None => None
        end
      else None
  | None => None
  end.

Definition test_title_match_in_extracted_text (p : Parser) : result (option bool) :=
  if PyStr.opt_truthy (dec_ms_title p) then
    bind_result (find_match_in_extracted_text p None true default_span (1 # 10)%Q)
      (fun m => Ret (Some (is_some m)))
  else Ret None.

Definition test_length_of_extracted_text (p : Parser) (min_length : nat)
  : option bool :=
  if PyStr.truthy (extracted_text p)
  then Some (min_length <=? PyStr.len (extracted_text p))%nat
  else None.

Definition default_min_length : nat := 3 * NUMBER_OF_CHARACTERS_IN_ONE_PAGE.

Definition test_doi_resolves (p : Parser) (doi : option string)
  : result (option bool) :=
  let known :=
    if PyStr.opt_truthy doi then doi else metadata p !! "doi" in
  match known with
  | None => Ret None
  | Some d => bind_result (http_get_ok E (DOI_BASE_URL ++ d))
                          (fun ok => Ret (Some ok))
  end.

(** *** [PdfParser] *)

Definition extract_publisher_tags_from_file_metadata (p : Parser) : list string :=
  List.filter
    (fun tag => match file_metadata p !! tag with
                | Some v => PyStr.truthy v
                | None => false
                end)
    PUBLISHER_PDF_METADATA_TAGS.

Definition test_title_match_cermxml (p : Parser) (min_similarity : Q)
  : option bool :=
  match dec_ms_title p, cerm_title p with
  | Some title, Some ct =>
      if PyStr.truthy title && PyStr.truthy ct
      then Some (Qle_bool min_similarity (similarity E ct title))
      else None
  | _, _ => None
  end.

Definition test_file_has_image_on_first_page (p : Parser) : bool :=
  existsb (PyStr.contains "img_1_") (image_files p).

Definition detect_publisher_logos (p : Parser) : list PublisherLogo :=
  matching_logos p.

Definition test_valid_doi_in_extracted_text := test_doi_resolves.
Definition test_valid_doi_in_cermine_xml := test_doi_resolves.

(** The versions the detected logos suggest, without repetition. *)
Definition suggested_versions (logos : list PublisherLogo) : list string :=
  fold_left
    (fun acc dl =>
       fold_left (fun acc v => if str_in v acc then acc else (acc ++ [v])%list)
                 (indicate_ms_versions dl) acc)
    logos [].

(** [for v in reversed(pv): if v not in suggested: exclude_versions([v])]
    on the list object itself: the reversed iterator holds an index,
    reads the list as it is at each step and stops once the index is
    past the end. *)
Fixpoint exclude_uncorroborated (suggested : list string) (i : nat)
    (pv : list string) : list string :=
  match pv !! i with
  | None => pv
  | Some v =>
      let pv' := if str_in v suggested then pv else exclude_from [v] pv in
      match i with
      | O => pv'
      | S i' => exclude_uncorroborated suggested i' pv'
      end
  end.

Definition refine_by_logos (logos : list PublisherLogo) : M unit :=
  fun s =>
    let pv := possible_versions s in
    (mkClassAttrs
       (exclude_uncorroborated (suggested_versions logos) (length pv - 1) pv)
       (test_results s),
     Ret tt).

Definition author_versions : list string :=
  ["submitted version"; "accepted version"; SMUR; AM].

Definition msg_short (p : Parser) : string :=
  "File " ++ file_name p ++ " is quite short for a journal article. Please check.".

Definition msg_no_title (p : Parser) : string :=
  "Could not find declared title (" ++ format_opt (dec_ms_title p)
    ++ ") in file " ++ file_name p.

Definition msg_declared (v : string) : string :=
  "This is either a submitted or accepted version, but declared version is " ++ v.

(** [self.dec_version.lower()] *)
Definition dec_version_lower (p : Parser) : M string :=
  match dec_version p with
  | Some v => ret (PyStr.lower v)
  | None => raise AttributeError
  end.

(** The sanity condition both workflows branch on. *)
Definition sane (r : ArtemisResult) : bool :=
  is_true (long_enough r)
  && (is_true (title_match_file_metadata r)
      || is_true (title_match_extracted_text r)).

(** The [else] branch shared by both workflows. *)
Definition insane_reason (p : Parser) (r : ArtemisResult) : ArtemisResult :=
  if is_true (long_enough r) then set_reason (msg_no_title p) r
  else set_reason (msg_short p) r.

(** *** [DocxParser.parse] *)

Definition docx_decision (p : Parser) (r : ArtemisResult) : M ArtemisResult :=
  if sane r then
    let r := set_sanity_check (Some true) r in
    v <- dec_version_lower p ;;
    pv <- get_possible_versions ;;
    if str_in v pv then
      let r := set_approve_deposit true r in
      ret (set_reason "Declared version is plausible" r)
    else
      ret (set_reason (msg_declared (format_opt (dec_version p))) r)
  else ret (insane_reason p r).

Definition DocxParser_parse (p : Parser) : M Response :=
  let r := new_result (file_name p) in
  exclude_versions [P; VOR] ;;;
  let r := set_probs 5000 5000 0 0 0 r in
  let t := test_title_match_in_file_metadata p "title" (9 # 10) in
  append_test_result "test_title_match_in_file_metadata" (VTri t) ;;;
  let r := set_title_match_file_metadata t r in
  let t := test_length_of_extracted_text p default_min_length in
  append_test_result "test_length_of_extracted_text" (VTri t) ;;;
  let r := set_long_enough t r in
  t <- lift (test_title_match_in_extracted_text p) ;;
  append_test_result "test_title_match_in_extracted_text" (VTri t) ;;;
  let r := set_title_match_extracted_text t r in
  r <- docx_decision p r ;;
  json_response r.

(** *** [PdfParser.parse] *)

(** The region "file metadata tests". *)
Definition pdf_metadata_tests (p : Parser) (r : ArtemisResult) : M ArtemisResult :=
  let t := test_title_match_in_file_metadata p "/Title" (9 # 10) in
  append_test_result "test_title_match_in_file_metadata" (VTri t) ;;;
  let r := set_title_match_file_metadata t r in
  let tags := extract_publisher_tags_from_file_metadata p in
  append_test_result "extract_publisher_tags_from_file_metadata" (VTags tags) ;;;
  let r := set_extracted_publisher_tags_in_file_metadata tags r in
  if nonempty (extracted_publisher_tags_in_file_metadata r) then
    exclude_versions ["submitted version"; SMUR] ;;;
    let r := set_smur_prob 0 r in
    exclude_versions ["accepted version"; AM] ;;;
    ret (set_am_prob 0 r)
  else ret r.

(** The region "extracted text tests". *)
Definition pdf_text_tests (p : Parser) (r : ArtemisResult) : M ArtemisResult :=
  let t := test_length_of_extracted_text p default_min_length in
  append_test_result "test_length_of_extracted_text" (VTri t) ;;;
  let r := set_long_enough t r in
  t <- lift (test_title_match_in_extracted_text p) ;;
  append_test_result "test_title_match_in_extracted_text" (VTri t) ;;;
  let r := set_title_match_extracted_text t r in
  doi_in_extracted_text <- lift (find_doi_in_extracted_text p) ;;
  r <- match doi_in_extracted_text with
       | Some m =>
           let doi_match := mr_match m in
           t <- lift (test_valid_doi_in_extracted_text p (Some doi_match)) ;;
           append_test_result "test_valid_doi_in_extracted_text" (VTri t) ;;;
           ret (set_valid_doi_in_extracted_text t r)
       | None => ret r
       end ;;
  cc <- lift (find_cc_statement_in_extracted_text p) ;;
  append_test_result "find_cc_statement_in_extracted_text" (VMatch cc) ;;;
  ret (set_cc_match_extracted_text cc r).

(** The region "cermine tests". *)
Definition pdf_cermine_tests (p : Parser) (r : ArtemisResult) : M ArtemisResult :=
  r <- (if PyStr.opt_truthy (cerm_doi p) then
          t <- lift (test_valid_doi_in_cermine_xml p (cerm_doi p)) ;;
          append_test_result "test_valid_doi_in_cermine_xml" (VTri t) ;;;
          ret (set_valid_doi_in_cermine_xml t r)
        else ret r) ;;
  let t := test_title_match_cermxml p (9 # 10) in
  append_test_result "test_title_match_cermxml" (VTri t) ;;;
  ret (set_title_match_cermine_xml t r).

(** The region "logo tests". *)
Definition pdf_logo_tests (p : Parser) (r : ArtemisResult) : M ArtemisResult :=
  let t := test_file_has_image_on_first_page p in
  append_test_result "test_file_has_image_on_first_page" (VTri (Some t)) ;;;
  let r := set_image_on_first_page t r in
  let logos := detect_publisher_logos p in
  append_test_result "detect_publisher_logos" (VLogos logos) ;;;
  let r := set_detected_logos logos r in
  (if nonempty (detected_logos r) then refine_by_logos logos else ret tt) ;;;
  ret r.

(** The region "decision". *)
Definition pdf_decision (p : Parser) (r : ArtemisResult) : M ArtemisResult :=
  if sane r then
    let r := set_sanity_check (Some true) r in
    if nonempty (extracted_publisher_tags_in_file_metadata r)
       || is_some (cc_match_extracted_text r) then
      exclude_versions [SMUR; AM] ;;;
      v <- dec_version_lower p ;;
      let r :=
        if str_in v author_versions
        then set_reason "PDF metadata contains publisher tags, but declared version is author-generated" r
        else r in
      if is_some (cc_match_extracted_text r) then
        let r := set_reason "Create Commons licence detected in extracted text" r in
        ret (set_approve_deposit true r)
      else
        ret (set_reason "Publisher-generated version; no evidence of CC licence" r)
    else
      v <- dec_version_lower p ;;
      if str_in v author_versions then
        let r := set_approve_deposit true r in
        ret (set_reason "Could not find any evidence that this PDF is publisher-generated" r)
      else
        ret (set_reason (msg_declared (format_opt (dec_version p))) r)
  else ret (insane_reason p r).

Definition PdfParser_parse (p : Parser) : M Response :=
  let r := new_result (file_name p) in
  let r := set_probs 2500 2500 2500 1250 1250 r in
  r <- pdf_metadata_tests p r ;;
  r <- pdf_text_tests p r ;;
  r <- pdf_cermine_tests p r ;;
  r <- pdf_logo_tests p r ;;
  r <- pdf_decision p r ;;
  json_response r.

(** *** A run of the program over several files *)

Inductive file_kind : Type := Docx | Pdf.

Definition parse (k : file_kind) (p : Parser) : M Response :=
  match k with
  | Docx => DocxParser_parse p
  | Pdf => PdfParser_parse p
  end.

(** The class attributes as the class statement creates them. *)
Definition initial_attrs : ClassAttrs :=
  {| possible_versions := [SMUR; AM; P; VOR]; test_results := ∅ |}.

(** Evaluate the files one after the other in one process; an
    evaluation that raises yields no response, and the next one still
    runs on the attributes as they were left. *)
Fixpoint evaluate_all (files : list (file_kind * Parser)) (s : ClassAttrs)
  : ClassAttrs * list (result Response) :=
  match files with
  | [] => (s, [])
  | (k, p) :: rest =>
      let '(s', x) := parse k p s in
      let '(s'', xs) := evaluate_all rest s' in
      (s'', x :: xs)
  end.

(** What the instance created for the next file reads right after
    [ArtemisResult(...)]: the two shared objects. *)
Definition attrs_after (files : list (file_kind * Parser)) : ClassAttrs :=
  fst (evaluate_all files initial_attrs).

End Parsers.

(** ** A sample environment and sample files *)

Module Sample.

Definition doi_pattern : string := "10\.\d{4,9}/[-._;()/:a-z0-9]+".

(** A stand-in for the engine on the one pattern outside the literal
    fragment that the samples meet: the DOI pattern finds the DOI
    [10.1000/182] when the text starts with it. *)
Definition engine (pattern text : string) : result (option Regex.match_obj) :=
  if String.eqb pattern doi_pattern && PyStr.startswith "10.1000/182" text
  then Ret (Some (Regex.MatchObj 0 11 "10.1000/182"))
  else Ret None.

Definition exact (a b : string) : Q := if String.eqb a b then 1%Q else 0%Q.

Definition env (get : string -> result bool) : Env :=
  {| c_SMUR := "submitted manuscript under review";
     c_AM := "accepted manuscript";
     c_P := "proof";
     c_VOR := "version of record";
     c_DOI_PATTERN := doi_pattern;
     c_ALL_CC_LICENCES :=
       [ {| cc_url := "creativecommons.org/licenses/by/4.0";
            cc_long_name := "Creative Commons Attribution 4.0";
            cc_short_name := "CC BY 4.0" |} ];
     regex_engine := engine;
     similarity := exact;
     http_get_ok := get |}.

(** Every DOI resolves. *)
Definition online : Env := env (fun _ => Ret true).


Fixpoint repeat_string (n : nat) (s : string) : string :=
  match n with
  | O => EmptyString
  | S n' => s ++ repeat_string n' s
  end.

(** 8400 characters of body text. *)
Definition body : string := repeat_string 700 "lorem ipsum ".

Definition file (name : string) (title version : option string)
    (fmeta : gmap string string) (text : string) : Parser :=
  {| file_name := name;
     dec_ms_title := title;
     dec_version := version;
     metadata := ∅;
     file_metadata := fmeta;
     extracted_text := text;
     cerm_doi := None;
     cerm_title := None;
     image_files := [];
     matching_logos := [] |}.

(** An author's manuscript as a DOCX file, declared as such. *)
Definition manuscript_docx : Parser :=
  file "paper.docx" (Some "Lorem Ipsum") (Some "Accepted Manuscript")
    (<["title" := "Lorem Ipsum"]> ∅) body.

(** A publisher's PDF: a DOI tag in the metadata, the DOI at the start
    of the text, no licence statement. *)
Definition publisher_pdf : Parser :=
  file "paper.pdf" (Some "Lorem Ipsum") (Some "accepted manuscript")
    (<["/doi" := "10.1000/182"]> (<["/Title" := "Lorem Ipsum"]> ∅))
    ("10.1000/182 " ++ body).

(** A PDF of one line. *)
Definition short_pdf : Parser :=
  file "note.pdf" (Some "Lorem Ipsum") (Some "proof")
    (<["/Title" := "Lorem Ipsum"]> ∅) "lorem ipsum".

(** A file from which no text could be extracted. *)
Definition empty_file : Parser :=
  file "empty.pdf" None (Some "accepted manuscript") ∅ "".

End Sample.

(** ** Notions used in the statements *)

(** [needle] occurs in [haystack] as a substring, ignoring case. *)
Definition occurs_ci (needle haystack : string) : Prop :=
  ∃ pre mid post,
    haystack = pre ++ mid ++ post ∧ PyStr.lower mid = PyStr.lower needle.

(** [outcome m s Q R]: run from [s], [m] either returns a value and
    attributes that satisfy [Q], or raises an exception that, with the
    attributes it leaves, satisfies [R]. *)
Definition outcome {A} (m : M A) (s : ClassAttrs)
    (Q : ClassAttrs → A → Prop) (R : ClassAttrs → exn → Prop) : Prop :=
  match m s with
  | (s', Ret a) => Q s' a
  | (s', Raises e) => R s' e
  end.

(** The services answer every call: neither the pattern engine nor the
    DOI resolver raises. *)
Definition services_respond (E : Env) : Prop :=
  (∀ pattern text, ∃ o, regex_engine E pattern text = Ret o)
  ∧ (∀ url, ∃ ok, http_get_ok E url = Ret ok).

(** The services answer every call, and no licence of the catalogue has
    an empty long name. *)
Definition well_behaved (E : Env) : Prop :=
  services_respond E
  ∧ Forall (λ l, cc_long_name l ≠ "") (c_ALL_CC_LICENCES E).

(** The verdicts of a run, file by file; [None] where the evaluation
    raised. *)
Definition approvals (xs : list (result Response)) : list (option bool) :=
  List.map (λ x, match x with
                 | Ret resp => Some (resp_approve_deposit resp)
                 | Raises _ => None
                 end) xs.

(** The attributes of a result that the decisions and the response read. *)
Definition core (r : ArtemisResult) :=
  (sanity_check r, approve_deposit r, smur_prob r, am_prob r,
   long_enough r, title_match_file_metadata r, title_match_extracted_text r,
   extracted_publisher_tags_in_file_metadata r, cc_match_extracted_text r).

(** What every response of a workflow satisfies. *)
Definition verdict_ok (p : Parser) (resp : Response) : Prop :=
  (resp_sanity_check resp = Some true ∨ resp_sanity_check resp = None)
  ∧ (resp_approve_deposit resp = true → resp_sanity_check resp = Some true)
  ∧ (test_length_of_extracted_text p default_min_length ≠ Some true →
     resp_sanity_check resp = None ∧ resp_approve_deposit resp = false).

(** The result object of the PDF workflow when its decision region
    starts: no verdict yet, and the attributes hold the results of the
    tests on the file. *)
Definition pdf_tested (E : Env) (p : Parser) (r : ArtemisResult) : Prop :=
  sanity_check r = None
  ∧ approve_deposit r = false
  ∧ long_enough r = test_length_of_extracted_text p default_min_length
  ∧ title_match_file_metadata r
    = test_title_match_in_file_metadata E p "/Title" (9 # 10)
  ∧ test_title_match_in_extracted_text E p = Ret (title_match_extracted_text r)
  ∧ extracted_publisher_tags_in_file_metadata r
    = Some (extract_publisher_tags_from_file_metadata p)
  ∧ find_cc_statement_in_extracted_text E p = Ret (cc_match_extracted_text r)
  ∧ (extract_publisher_tags_from_file_metadata p ≠ [] →
     smur_prob r = 0%Z ∧ am_prob r = 0%Z).

(** The same for the DOCX workflow. *)
Definition docx_tested (E : Env) (p : Parser) (r : ArtemisResult) : Prop :=
  sanity_check r = None
  ∧ approve_deposit r = false
  ∧ long_enough r = test_length_of_extracted_text p default_min_length
  ∧ title_match_file_metadata r
    = test_title_match_in_file_metadata E p "title" (9 # 10)
  ∧ test_title_match_in_extracted_text E p = Ret (title_match_extracted_text r).

(** A computation leaves a candidate list without repetition without
    repetition, also when it raises. *)
Definition keeps_NoDup {A} (m : M A) : Prop :=
  ∀ s, NoDup (possible_versions s) → NoDup (possible_versions (fst (m s))).

(** ** [VersionDetector] *)

(** What [detect] returns: the response of a workflow, or the pair
    [("fail", error_msg)]. *)
Inductive detect_result : Type :=
  | Detected (resp : Response)
  | NotSupported (status error_msg : string).

(** A detector: [ext] is [os.path.splitext(self.file_path)[-1]], and
    [vd_file] what the parser created for the path will extract. *)
Record VersionDetector : Type := mkDetector {
  vd_ext : string;
  vd_file : Parser
}.

(** [self.file_ext] *)
Definition file_ext (vd : VersionDetector) : string := PyStr.lower (vd_ext vd).

Definition editable_extensions : list string :=
  [".doc"; ".html"; ".htm"; ".odt"; ".ppt"; ".pptx"; ".rtf"; ".tex"; ".txt"].

Definition check_extension (vd : VersionDetector) : string :=
  if String.eqb (file_ext vd) ".pdf" then "pdf"
  else if String.eqb (file_ext vd) ".docx" then "docx"
  else if str_in (file_ext vd) editable_extensions then "editable_document"
  else file_ext vd.

(** [detect]; the PDF routine copies the file and parses the copy. *)
Definition detect (E : Env) (vd : VersionDetector) : M detect_result :=
  let ext := check_extension vd in
  if String.eqb ext "docx" then
    result <- DocxParser_parse E (vd_file vd) ;; ret (Detected result)
  else if String.eqb ext "pdf" then
    result <- PdfParser_parse E (vd_file vd) ;; ret (Detected result)
  else
    let error_msg := ext ++ " is not a supported file extension" in
    ret (NotSupported "fail" error_msg).

(** ** [PdfParser.parse_cermxml] *)

Module Cermxml.

Local Unset Elimination Schemes.

(** An element of the parsed XML tree: tag, attributes, text, children. *)
Inductive element : Type :=
  | Element (tag : string) (attrib : gmap string string) (text : option string)
            (children : list element).

Local Set Elimination Schemes.

Definition tag (e : element) : string :=
  match e with Element t _ _ _ => t end.

Definition attrib (e : element) : gmap string string :=
  match e with Element _ a _ _ => a end.

Definition text (e : element) : option string :=
  match e with Element _ _ x _ => x end.

Definition children (e : element) : list element :=
  match e with Element _ _ _ cs => cs end.

(** The element and all elements below it, in document order. *)
Fixpoint descendants (e : element) : list element :=
  match e with
  | Element _ _ _ cs =>
      e :: (fix below (l : list element) : list element :=
              match l with
              | [] => []
              | c :: l' => (descendants c ++ below l')%list
              end) cs
  end.

(** [e.iter(t)] *)
Definition iter (t : string) (e : element) : list element :=
  List.filter (fun x => String.eqb (tag x) t) (descendants e).

(** [e.find(t)]: the first child with tag [t]. *)
Definition find (t : string) (e : element) : option element :=
  List.find (fun c => String.eqb (tag c) t) (children e).

(** The attributes of the parser that [parse_cermxml] assigns. *)
Record state : Type := mkState {
  cerm_ran_and_parsed : bool;
  cerm_doi : option string;
  cerm_title : option string;
  cerm_journal_title : option string
}.

(** As [PdfParser.__init__] leaves them. *)
Definition initial : state := mkState false None None None.

(** The loop over the [article-id] elements. *)
Definition extract_doi (root : element) (doi : option string) : option string :=
  fold_left
    (fun doi c_id =>
       if bool_decide (attrib c_id !! "pub-id-type" = Some "doi")
       then text c_id else doi)
    (iter "article-id" root) doi.

(** The loops over the title elements: each one overwrites. *)
Definition overwrite (elements : list element) (v : option string) : option string :=
  fold_left (fun _ c => text c) elements v.

(** [parse_cermxml]; [file] is the tree of the [.cermxml] file, [None]
    when the file does not exist.  [root.find('front')] is [None] for a
    root without such a child, and [None.iter] raises. *)
Definition parse_cermxml (file : option element) (st : state)
  : state * result (option (option string * option string * option string)) :=
  match file with
  | Some root =>
      let doi := extract_doi root (cerm_doi st) in
      let st := mkState (cerm_ran_and_parsed st) doi (cerm_title st)
                        (cerm_journal_title st) in
      match find "front" root with
      | Some front =>
          let title := overwrite (iter "article-title" front) (cerm_title st) in
          let journal := overwrite (iter "journal-title" root) (cerm_journal_title st) in
          (mkState true doi title journal, Ret (Some (doi, title, journal)))
      | None => (st, Raises AttributeError)
      end
  | None => (st, Ret None)
  end.

End Cermxml.

(** ** [PdfParser.detect_publisher_logos] *)

Module Logos.

Section Detect.

(** [logo.test_hash_match(pl, max_hash_difference=d)] for the image named
    [i] ([utils.logos]), and the records of the logo database in the order
    the shelf yields them.  The loop also calls the test once with
    [method="perception"] and drops the answer. *)
Context (test_hash_match : PublisherLogo -> string -> nat -> bool).
Context (db : list PublisherLogo).

(** The loop over the database for one image. *)
Fixpoint scan_db (entries : list PublisherLogo) (i : string)
    (max_hash_difference : nat) (stop_at_first_match : bool)
    (detected_logos : list PublisherLogo) : list PublisherLogo :=
  match entries with
  | [] => detected_logos
  | logo :: rest =>
      if test_hash_match logo i max_hash_difference then
        let detected_logos := (detected_logos ++ [logo])%list in
        if stop_at_first_match then detected_logos
        else scan_db rest i max_hash_difference stop_at_first_match detected_logos
      else scan_db rest i max_hash_difference stop_at_first_match detected_logos
  end.

(** The loop over the extracted images. *)
Fixpoint scan_images (images : list string) (max_hash_difference : nat)
    (stop_at_first_match : bool) (detected_logos : list PublisherLogo)
  : list PublisherLogo :=
  match images with
  | [] => detected_logos
  | i :: rest =>
      let detected_logos :=
        scan_db db i max_hash_difference stop_at_first_match detected_logos in
      if match detected_logos with [] => false | _ => true end && stop_at_first_match
      then detected_logos
      else scan_images rest max_hash_difference stop_at_first_match detected_logos
  end.

Definition detect_publisher_logos (images : list string)
    (max_hash_difference : nat) (stop_at_first_match : bool)
  : list PublisherLogo :=
  scan_images images max_hash_difference stop_at_first_match [].

End Detect.

End Logos.

(** ** [PdfParser.test_doi_match] *)

Definition test_doi_match (E : Env) (p : Parser) : result bool :=
  bind_result (find_doi_in_extracted_text E p) (fun result => Ret (is_some result)).

(** ** Notions used in the further statements *)

(** The text has no line break. *)
Fixpoint no_newline (s : string) : bool :=
  match s with
  | EmptyString => true
  | String c r => negb (PyStr.code c =? 10)%nat && no_newline r
  end.

(** The text has no two spaces in a row. *)
Fixpoint no_double_space (s : string) : bool :=
  match s with
  | EmptyString => true
  | String c r =>
      match r with
      | String d _ => negb (Ascii.eqb c " " && Ascii.eqb d " ") && no_double_space r
      | EmptyString => true
      end
  end.

(** The display weights of a result object. *)
Definition weights (r : ArtemisResult) : Z * Z * Z * Z * Z :=
  (smur_prob r, am_prob r, p_prob r, vor_oa_prob r, vor_pw_prob r).

(** The names under which the two workflows record test results. *)
Definition recorded_names : list string :=
  [ "test_title_match_in_file_metadata";
    "extract_publisher_tags_from_file_metadata";
    "test_length_of_extracted_text";
    "test_title_match_in_extracted_text";
    "test_valid_doi_in_extracted_text";
    "find_cc_statement_in_extracted_text";
    "test_valid_doi_in_cermine_xml";
    "test_title_match_cermxml";
    "test_file_has_image_on_first_page";
    "detect_publisher_logos" ].


(** The queries of [find_cc_statement_in_extracted_text], in the order
    of its two loops. *)
Definition cc_queries (E : Env) : list (string * Q) :=
  flat_map (fun l => [ (cc_url l, 0%Q); (cc_long_name l, (1 # 10)%Q);
                       (cc_short_name l, 0%Q) ])
           (c_ALL_CC_LICENCES E).

(** One query of the catalogue, as the loop runs it. *)
Definition cc_query (E : Env) (p : Parser) (q : string * Q)
  : result (option MatchResult) :=
  find_match_in_extracted_text E p (Some (fst q)) false default_span (snd q).

(** The metadata key under which a workflow looks for the title. *)
Definition title_key (k : file_kind) : string :=
  match k with Docx => "title" | Pdf => "/Title" end.


(** From [s] to [s'] only the entries of the test results under [names]
    may have changed. *)
Definition writes_only (names : list string) (s s' : ClassAttrs) : Prop :=
  ∀ name, name ∉ names → test_results s' !! name = test_results s !! name.

(** ** A sample environment whose catalogue has a literal short name *)

Module Licensed.

Definition env : Env :=
  {| c_SMUR := "submitted manuscript under review";
     c_AM := "accepted manuscript";
     c_P := "proof";
     c_VOR := "version of record";
     c_DOI_PATTERN := Sample.doi_pattern;
     c_ALL_CC_LICENCES :=
       [ {| cc_url := "creativecommons.org/licenses/by";
            cc_long_name := "Creative Commons Attribution";
            cc_short_name := "CC BY" |} ];
     regex_engine := Sample.engine;
     similarity := Sample.exact;
     http_get_ok := fun _ => Ret true |}.


End Licensed.

(** A computation only shrinks the candidate list and only adds names to
    the test results, also when it raises. *)
Definition monotone {A} (m : M A) : Prop :=
  ∀ s, possible_versions (fst (m s)) `sublist_of` possible_versions s
       ∧ dom (test_results s) ⊆ dom (test_results (fst (m s))).

(** * Properties *)

(** ** The candidate list *)

Section CandidateList.

Implicit Types (v x : string) (l pv e_list : list string).

Lemma str_in_spec v l : str_in v l = true ↔ v ∈ l.
Proof.
  unfold str_in. rewrite existsb_exists. split.
  - intros (x & Hx & Hv). apply String.eqb_eq in Hv. subst.
    by apply list_elem_of_In.
  - intros Hv. exists v. split; [by apply list_elem_of_In | apply String.eqb_refl].
Qed.

Lemma str_in_false v l : str_in v l = false ↔ v ∉ l.
Proof.
  rewrite <- str_in_spec. destruct (str_in v l); naive_solver.
Qed.

Lemma remove_first_notin v l : v ∉ l → remove_first v l = l.
Proof.
  induction l as [|x l IH]; [done|]. intros Hv. simpl.
  destruct (String.eqb_spec v x) as [->|Hne].
  - exfalso. apply Hv. left.
  - f_equal. apply IH. intros Hin. apply Hv. by right.
Qed.

Lemma filter_ne_notin v l : v ∉ l → filter (λ x, x ≠ v) l = l.
Proof.
  induction l as [|x l IH]; [done|]. intros Hv.
  rewrite filter_cons_True.
  - f_equal. apply IH. intros Hin. apply Hv. by right.
  - intros ->. apply Hv. left.
Qed.

(** On a list without repetition, [remove] deletes the value. *)
Lemma remove_first_filter v l :
  NoDup l → remove_first v l = filter (λ x, x ≠ v) l.
Proof.
  induction 1 as [|x l Hx Hl IH]; [done|]. simpl.
  destruct (String.eqb_spec v x) as [->|Hne].
  - rewrite filter_cons_False by (intros H; by apply H).
    symmetry. by apply filter_ne_notin.
  - rewrite filter_cons_True by congruence. by rewrite IH.
Qed.

(** The guard [if v in self.possible_versions] only avoids the
    [ValueError] of [remove]. *)
Lemma exclude_step v l :
  (if str_in v l then remove_first v l else l) = remove_first v l.
Proof.
  destruct (str_in v l) eqn:Hin; [done|].
  symmetry. apply remove_first_notin. by apply str_in_false.
Qed.

Lemma exclude_from_filter e_list l :
  NoDup l → exclude_from e_list l = filter (λ x, x ∉ e_list) l.
Proof.
  revert l. induction e_list as [|v e IH]; intros l Hl; simpl.
  - symmetry. induction l as [|x l IHl]; [done|].
    apply NoDup_cons in Hl as [_ Hl].
    rewrite filter_cons_True by apply not_elem_of_nil.
    by rewrite IHl.
  - rewrite exclude_step, remove_first_filter by done.
    rewrite IH by by apply NoDup_filter.
    rewrite list_filter_filter. apply list_filter_iff.
    intros x. rewrite not_elem_of_cons. tauto.
Qed.

Lemma exclude_from_NoDup e_list l : NoDup l → NoDup (exclude_from e_list l).
Proof.
  intros Hl. rewrite exclude_from_filter by done. by apply NoDup_filter.
Qed.

Lemma exclude_from_excluded e_list l v :
  NoDup l → v ∈ e_list → v ∉ exclude_from e_list l.
Proof.
  intros Hl Hv. rewrite exclude_from_filter by done.
  rewrite list_elem_of_filter. tauto.
Qed.

Lemma remove_first_subseteq v l : remove_first v l ⊆ l.
Proof.
  induction l as [|x l IH]; [done|]. simpl.
  destruct (String.eqb v x).
  - intros y Hy. by right.
  - intros y Hy. apply elem_of_cons in Hy as [->|Hy]; [left|right; by apply IH].
Qed.

Lemma exclude_from_subseteq e_list l : exclude_from e_list l ⊆ l.
Proof.
  revert l. induction e_list as [|v e IH]; intros l; simpl; [done|].
  rewrite exclude_step. etrans; [apply IH | apply remove_first_subseteq].
Qed.

Lemma exclude_from_absent e_list l :
  (∀ v, v ∈ e_list → v ∉ l) → exclude_from e_list l = l.
Proof.
  induction e_list as [|v e IH]; intros H; simpl; [done|].
  rewrite exclude_step, remove_first_notin by (apply H; left).
  apply IH. intros w Hw. apply H. by right.
Qed.

End CandidateList.

(** C8. [exclude_versions] is idempotent on a candidate set (a list in
    which no version is repeated): a second call with the same [e_list]
    changes nothing and returns the same list.  Excluding a version that
    is not in the candidate list leaves the attributes unchanged. *)
Theorem exclude_versions_idempotent (e_list : list string) (s : ClassAttrs) :
  (NoDup (possible_versions s) →
   let s1 := fst (exclude_versions e_list s) in
   exclude_versions e_list s1 = (s1, Ret (possible_versions s1)))
  ∧ (∀ v, v ∉ possible_versions s →
          exclude_versions [v] s = (s, Ret (possible_versions s))).
Proof.
  split.
  - intros Hnd. simpl. unfold exclude_versions. simpl.
    assert (Hid : exclude_from e_list (exclude_from e_list (possible_versions s))
                  = exclude_from e_list (possible_versions s)).
    { apply exclude_from_absent. intros v Hv. by apply exclude_from_excluded. }
    by rewrite Hid.
  - intros v Hv. unfold exclude_versions. simpl.
    apply str_in_false in Hv. rewrite Hv. by destruct s.
Qed.

Lemma exclude_versions_idempotent_witness :
  let s := initial_attrs Sample.online in
  let s1 := fst (exclude_versions ["proof"; "preprint"; "proof"] s) in
  possible_versions s1
    = ["submitted manuscript under review"; "accepted manuscript"; "version of record"]
  ∧ exclude_versions ["proof"; "preprint"; "proof"] s1 = (s1, Ret (possible_versions s1))
  ∧ exclude_versions ["preprint"] s = (s, Ret (possible_versions s)).
Proof.
  split; [reflexivity|].
  destruct (exclude_versions_idempotent ["proof"; "preprint"; "proof"]
              (initial_attrs Sample.online)) as [Hidem _].
  destruct (exclude_versions_idempotent ["preprint"]
              (initial_attrs Sample.online)) as [_ Hnoop].
  split.
  - apply Hidem. apply (bool_decide_unpack _). by vm_compute.
  - apply Hnoop. apply (bool_decide_unpack _). by vm_compute.
Defined.

(** Without the no-repetition proviso a second call can remove a further
    occurrence. *)
Remark exclude_from_repeated :
  exclude_from ["a"] ["a"; "a"] = ["a"]
  ∧ exclude_from ["a"] (exclude_from ["a"] ["a"; "a"]) = [].
Proof. split; reflexivity. Qed.

(** ** The fuzzy search *)

Section LiteralSearch.

Implicit Types (c : ascii) (q lit s : string).

Lemma not_special_not_backslash c :
  Regex.is_special c = false → Ascii.eqb c "\" = false.
Proof.
  intros Hc. destruct (Ascii.eqb_spec c "\") as [->|]; [|done].
  vm_compute in Hc. discriminate.
Qed.

(** An escaped query is a pattern of the literal fragment and stands
    for the query itself. *)
Lemma parse_literal_escape q : Regex.parse_literal (Regex.escape q) = Some q.
Proof.
  induction q as [|c q IH]; [done|].
  cbn [Regex.escape]. destruct (Regex.is_special c) eqn:Hc.
  - cbn [Regex.parse_literal]. rewrite Ascii.eqb_refl, Hc, IH. done.
  - cbn [Regex.parse_literal].
    rewrite (not_special_not_backslash c Hc), Hc, IH. done.
Qed.

Lemma prefix_ci_spec lit s :
  Regex.prefix_ci lit s = true
  ↔ ∃ mid post, s = mid ++ post ∧ PyStr.lower mid = PyStr.lower lit.
Proof.
  revert s. induction lit as [|a lit IH]; intros s.
  - split; [|done]. intros _. by exists "", s.
  - destruct s as [|b s]; cbn [Regex.prefix_ci].
    + split; [done|]. intros (mid & post & Hs & Hl).
      destruct mid; [discriminate Hl | discriminate Hs].
    + rewrite andb_true_iff, IH. split.
      * intros [Hab (mid & post & -> & Hl)].
        apply Ascii.eqb_eq in Hab.
        exists (String b mid), post. split; [done|].
        cbn [PyStr.lower]. by rewrite Hab, Hl.
      * intros (mid & post & Hs & Hl).
        destruct mid as [|b' mid]; [discriminate Hl|].
        cbn [PyStr.lower] in Hl. cbn [String.append] in Hs.
        injection Hs as -> ->. injection Hl as Hc Hl.
        split; [by apply Ascii.eqb_eq | by exists mid, post].
Qed.

Lemma search_literal_from_spec lit s pos :
  is_some (Regex.search_literal_from lit s pos) = true ↔ occurs_ci lit s.
Proof.
  revert pos. induction s as [|b s IH]; intros pos; cbn [Regex.search_literal_from].
  - destruct (Regex.prefix_ci lit "") eqn:Hp.
    + split; [|done]. intros _. apply prefix_ci_spec in Hp as (mid & post & Hs & Hl).
      by exists "", mid, post.
    + split; [done|]. intros (pre & mid & post & Hs & Hl).
      destruct pre; [|discriminate Hs]. cbn [String.append] in Hs.
      assert (Regex.prefix_ci lit "" = true) as Hc; [|congruence].
      apply prefix_ci_spec. by exists mid, post.
  - destruct (Regex.prefix_ci lit (String b s)) eqn:Hp.
    + split; [|done]. intros _. apply prefix_ci_spec in Hp as (mid & post & Hs & Hl).
      by exists "", mid, post.
    + rewrite IH. split.
      * intros (pre & mid & post & -> & Hl). by exists (String b pre), mid, post.
      * intros (pre & mid & post & Hs & Hl). destruct pre as [|b' pre].
        -- cbn [String.append] in Hs.
           assert (Regex.prefix_ci lit (String b s) = true) as Hc; [|congruence].
           apply prefix_ci_spec. by exists mid, post.
        -- cbn [String.append] in Hs. injection Hs as -> ->.
           by exists pre, mid, post.
Qed.

End LiteralSearch.

(** C6. With [allowed_error_ratio = 0] and the default escaping, the
    search for a non-empty needle returns (it does not raise), and it
    returns a match exactly when the needle occurs in the normalised text
    as a substring, ignoring case. *)
Theorem exact_search_iff_substring (E : Env) (p : Parser) (needle : string)
    (expected_span : nat * nat) :
  needle ≠ "" →
  ∃ o, find_match_in_extracted_text E p (Some needle) true expected_span 0 = Ret o
       ∧ (is_some o = true ↔ occurs_ci needle (continuous_text p)).
Proof.
  intros Hne.
  unfold find_match_in_extracted_text, query_pattern.
  assert (PyStr.opt_truthy (Some needle) = true) as ->.
  { destruct needle; [done | reflexivity]. }
  cbn [bind_result]. unfold search_pattern.
  change (is_zero 0) with true. cbn [bind_result].
  unfold regex_search. rewrite parse_literal_escape. unfold Regex.search_literal.
  destruct (Regex.search_literal_from needle (continuous_text p) 0) as [m|] eqn:Hm.
  - eexists. split; [reflexivity|]. cbn [is_some].
    rewrite <- (search_literal_from_spec needle (continuous_text p) 0), Hm. done.
  - exists None. split; [reflexivity|].
    rewrite <- (search_literal_from_spec needle (continuous_text p) 0), Hm. done.
Qed.

Lemma exact_search_iff_substring_witness :
  let p := Sample.file "a.pdf" None None ∅ "An  Essay on
Typing (draft)" in
  continuous_text p = "An Essay on Typing (draft)"
  ∧ ∃ o, find_match_in_extracted_text Sample.online p (Some "ON TYPING (") true
           default_span 0 = Ret o
         ∧ (is_some o = true ↔ occurs_ci "ON TYPING (" (continuous_text p)).
Proof.
  split; [reflexivity|].
  apply (exact_search_iff_substring Sample.online). discriminate.
Defined.

(** C5. The pattern built for the needle [abcd] and ratio 0.5 carries the
    constraint [{e<2}], which permits one error, where
    floor(0.5 × 4) = 2; for the needle [a.b] the limit is computed from
    the escaped needle of four characters, where floor(0.5 × 3) = 1. *)
Theorem error_limit_of_pattern (p : Parser) :
  query_pattern p (Some "abcd") true (1 # 2) = Ret (Some "abcd{e<2}")
  ∧ Regex.permitted_errors (error_limit (Regex.escape "abcd") (1 # 2)) = 1%Z
  ∧ py_int ((1 # 2) * inject_Z (Z.of_nat (PyStr.len "abcd"))) = 2%Z
  ∧ query_pattern p (Some "a.b") true (1 # 2) = Ret (Some "a\.b{e<2}")
  ∧ error_limit (Regex.escape "a.b") (1 # 2) = 2%Z
  ∧ py_int ((1 # 2) * inject_Z (Z.of_nat (PyStr.len "a.b"))) = 1%Z.
Proof. repeat split; reflexivity. Qed.

(** C7, as stated, fails: with the declared title [abc] an empty needle
    finds the title in the text. *)
Lemma empty_needle_finds_title :
  let p := Sample.file "a.pdf" (Some "abc") None ∅ "xx abc" in
  find_match_in_extracted_text Sample.online p (Some "") true default_span 0
  = Ret (Some {| mr_match := "abc"; mr_in_expected_position := true |}).
Proof. reflexivity. Qed.

(** C7, amended. A call with an empty or absent needle is a call with the
    declared title as the needle: same result, same exception. *)
Theorem empty_needle_is_declared_title (E : Env) (p : Parser)
    (escape_char : bool) (expected_span : nat * nat) (allowed_error_ratio : Q) :
  find_match_in_extracted_text E p (Some "") escape_char expected_span allowed_error_ratio
  = find_match_in_extracted_text E p (dec_ms_title p) escape_char expected_span
      allowed_error_ratio
  ∧ find_match_in_extracted_text E p None escape_char expected_span allowed_error_ratio
    = find_match_in_extracted_text E p (dec_ms_title p) escape_char expected_span
        allowed_error_ratio.
Proof.
  unfold find_match_in_extracted_text, query_pattern. cbn [PyStr.opt_truthy PyStr.truthy].
  destruct (PyStr.opt_truthy (dec_ms_title p)); split; reflexivity.
Qed.

(** ** Reasoning about computations over the class attributes *)

Section Outcome.

Context {A B : Type}.
Implicit Types (s : ClassAttrs) (R : ClassAttrs → exn → Prop).

Lemma outcome_bind (m : M A) (k : A → M B) s (Q : ClassAttrs → B → Prop) R :
  outcome m s (λ s1 a, outcome (k a) s1 Q R) R → outcome (bind m k) s Q R.
Proof. unfold outcome, bind. by destruct (m s) as [s1 [a|e]]. Qed.

Lemma outcome_ret (a : A) s (Q : ClassAttrs → A → Prop) R :
  Q s a → outcome (ret a) s Q R.
Proof. done. Qed.

Lemma outcome_raise e s (Q : ClassAttrs → A → Prop) R :
  R s e → outcome (raise e) s Q R.
Proof. done. Qed.

Lemma outcome_lift (x : result A) s (Q : ClassAttrs → A → Prop) R :
  match x with Ret a => Q s a | Raises e => R s e end → outcome (lift x) s Q R.
Proof. done. Qed.

Lemma outcome_mono (m : M A) s (Q Q' : ClassAttrs → A → Prop) R R' :
  outcome m s Q R →
  (∀ s' a, Q s' a → Q' s' a) → (∀ s' e, R s' e → R' s' e) →
  outcome m s Q' R'.
Proof.
  unfold outcome. destruct (m s) as [s1 [a|e]]; intros H HQ HR; auto.
Qed.

Lemma outcome_returns (m : M A) s (Q : ClassAttrs → A → Prop) :
  outcome m s Q (λ _ _, False) ↔ ∃ s' a, m s = (s', Ret a) ∧ Q s' a.
Proof.
  unfold outcome. destruct (m s) as [s1 [a|e]]; split.
  - intros H. by exists s1, a.
  - intros (s' & a' & Heq & H). by simplify_eq.
  - done.
  - intros (s' & a' & Heq & H). discriminate.
Qed.

Lemma outcome_partial (m : M A) s (Q : ClassAttrs → A → Prop) :
  outcome m s Q (λ _ _, True) ↔ ∀ s' a, m s = (s', Ret a) → Q s' a.
Proof.
  unfold outcome. destruct (m s) as [s1 [a|e]]; split.
  - intros H s' a' Heq. by simplify_eq.
  - intros H. by apply H.
  - intros _ s' a' Heq. discriminate.
  - done.
Qed.

End Outcome.

Lemma outcome_append name v s (Q : ClassAttrs → unit → Prop) R :
  Q (mkClassAttrs (possible_versions s) (<[name := v]> (test_results s))) tt →
  outcome (append_test_result name v) s Q R.
Proof. done. Qed.

Lemma outcome_exclude e_list s (Q : ClassAttrs → list string → Prop) R :
  Q (mkClassAttrs (exclude_from e_list (possible_versions s)) (test_results s))
    (exclude_from e_list (possible_versions s)) →
  outcome (exclude_versions e_list) s Q R.
Proof. done. Qed.

Lemma outcome_get s (Q : ClassAttrs → list string → Prop) R :
  Q s (possible_versions s) → outcome get_possible_versions s Q R.
Proof. done. Qed.

Ltac ostep :=
  lazymatch goal with
  | |- outcome (bind _ _) _ _ _ => apply outcome_bind
  | |- outcome (ret _) _ _ _ => apply outcome_ret
  | |- outcome (raise _) _ _ _ => apply outcome_raise
  | |- outcome (lift _) _ _ _ => apply outcome_lift
  | |- outcome (append_test_result _ _) _ _ _ => apply outcome_append
  | |- outcome (exclude_versions _) _ _ _ => apply outcome_exclude
  | |- outcome get_possible_versions _ _ _ => apply outcome_get
  end.

(** ** The tests return when the collaborators respond *)

Section TestsReturn.

Context (E : Env) (HE : services_respond E).

Lemma regex_search_returns pattern text :
  ∃ o, regex_search E pattern text = Ret o.
Proof.
  unfold regex_search. destruct (Regex.parse_literal pattern); [by eexists|].
  apply HE.
Qed.

(** A search returns unless the query, after the fall-back to the
    declared title, is [None] where a string is needed. *)
Lemma find_match_returns p query escape_char span ratio :
  (PyStr.opt_truthy query = true ∨ is_some (dec_ms_title p) = true
   ∨ (escape_char = false ∧ is_zero ratio = true)) →
  ∃ o, find_match_in_extracted_text E p query escape_char span ratio = Ret o.
Proof.
  intros Hq. unfold find_match_in_extracted_text, query_pattern, search_pattern.
  set (q := if PyStr.opt_truthy query then query else dec_ms_title p).
  assert (Hq' : is_some q = true ∨ (escape_char = false ∧ is_zero ratio = true)).
  { subst q. destruct Hq as [Hq|[Hq|Hq]].
    - rewrite Hq. destruct query; [by left | done].
    - destruct (PyStr.opt_truthy query) eqn:Hqt; [|by left].
      destruct query; [by left | done].
    - by right. }
  clearbody q.
  assert (Hsearch : ∀ pat, ∃ o,
    match regex_search E pat (continuous_text p) with
    | Ret (Some m) =>
        Ret (Some {| mr_match := Regex.m_group m;
                     mr_in_expected_position :=
                       (span.1 <=? Regex.m_start m)%nat
                       && (Regex.m_end m <=? span.2)%nat |})
    | Ret None => Ret None
    | Raises e => if exn_is_TypeError e then Ret None else Raises e
    end = Ret o).
  { intros pat. destruct (regex_search_returns pat (continuous_text p)) as [[m|] ->];
      by eexists. }
  destruct q as [q|].
  - destruct escape_char, (is_zero ratio); cbn [bind_result]; apply Hsearch.
  - destruct Hq' as [Hq'|[-> ->]]; [done|]. cbn [bind_result]. by eexists.
Qed.

Lemma test_title_match_in_extracted_text_returns p :
  ∃ t, test_title_match_in_extracted_text E p = Ret t.
Proof.
  unfold test_title_match_in_extracted_text.
  destruct (PyStr.opt_truthy (dec_ms_title p)) eqn:Ht; [|by eexists].
  destruct (find_match_returns p None true default_span (1 # 10)) as [o ->].
  - right; left. by destruct (dec_ms_title p).
  - by eexists.
Qed.

Lemma find_doi_in_extracted_text_returns p :
  ∃ o, find_doi_in_extracted_text E p = Ret o.
Proof. apply find_match_returns. right; right. done. Qed.

Lemma test_doi_resolves_returns p doi :
  ∃ t, test_doi_resolves E p doi = Ret t.
Proof.
  unfold test_doi_resolves.
  destruct (if PyStr.opt_truthy doi then doi else metadata p !! "doi") as [d|];
    [|by eexists].
  destruct HE as [_ Hget]. destruct (Hget (DOI_BASE_URL ++ d)) as [ok ->].
  by eexists.
Qed.

Lemma first_match_returns p queries :
  Forall (λ qr, fst qr ≠ "" ∨ is_zero (snd qr) = true) queries →
  ∃ o, first_match E p queries = Ret o.
Proof.
  induction 1 as [|[q ratio] queries Hq _ IH]; [by eexists|].
  cbn [first_match].
  destruct (find_match_returns p (Some q) false default_span ratio) as [o ->].
  - cbn [fst snd] in Hq. destruct Hq as [Hq|Hq]; [left; by destruct q|right; right; done].
  - cbn [bind_result]. destruct o; [by eexists | apply IH].
Qed.

Lemma find_cc_statement_in_extracted_text_returns p :
  Forall (λ l, cc_long_name l ≠ "") (c_ALL_CC_LICENCES E) →
  ∃ o, find_cc_statement_in_extracted_text E p = Ret o.
Proof.
  intros Hcat. apply first_match_returns.
  induction Hcat as [|l ls Hl _ IH]; [constructor|].
  cbn [flat_map app].
  constructor; [by right|]. constructor; [by left|]. constructor; [by right|].
  exact IH.
Qed.

End TestsReturn.

(** ** The stages of the workflows *)

Ltac ocase :=
  lazymatch goal with
  | |- outcome (if ?b then _ else _) _ _ _ => destruct b eqn:?
  | |- outcome (match ?x with _ => _ end) _ _ _ => destruct x eqn:?
  end.

Ltac osteps := repeat (first [ostep | progress cbv beta zeta]).

(** Reduce attribute assignments and attribute reads, and nothing else. *)
Ltac rsimpl :=
  cbn [set_probs set_smur_prob set_am_prob set_sanity_check set_approve_deposit
       set_reason set_long_enough set_title_match_file_metadata
       set_title_match_extracted_text
       set_extracted_publisher_tags_in_file_metadata
       set_valid_doi_in_extracted_text set_cc_match_extracted_text
       set_valid_doi_in_cermine_xml set_title_match_cermine_xml
       set_image_on_first_page set_detected_logos new_result
       input_filename smur_prob am_prob p_prob vor_oa_prob vor_pw_prob
       sanity_check approve_deposit reason long_enough
       title_match_file_metadata title_match_extracted_text
       extracted_publisher_tags_in_file_metadata valid_doi_in_extracted_text
       cc_match_extracted_text valid_doi_in_cermine_xml
       title_match_cermine_xml image_on_first_page detected_logos
       core nonempty possible_versions test_results] in *.

Lemma outcome_json r s (Q : ClassAttrs → Response → Prop) R :
  (∀ resp, resp_approve_deposit resp = approve_deposit r →
           resp_sanity_check resp = sanity_check r →
           resp_reason resp = reason r →
           conf_SMUR resp = smur_prob r # 100 →
           conf_AM resp = am_prob r # 100 →
           Q s resp) →
  outcome (json_response r) s Q R.
Proof. intros H. by apply H. Qed.

Section Refinement.

Implicit Types (pv suggested : list string).

Lemma exclude_uncorroborated_NoDup suggested i pv :
  NoDup pv → NoDup (exclude_uncorroborated suggested i pv).
Proof.
  revert pv. induction i as [|i IH]; intros pv Hpv; cbn [exclude_uncorroborated];
    destruct (pv !! _) as [v|]; try done;
    destruct (str_in v suggested); auto using exclude_from_NoDup.
Qed.

End Refinement.

Section Stages.

Context (E : Env).
Implicit Types (p : Parser) (r : ArtemisResult) (s : ClassAttrs)
  (R : ClassAttrs → exn → Prop).

Lemma pdf_metadata_tests_outcome p r s R :
  outcome (pdf_metadata_tests E p r) s
    (λ s' r',
       sanity_check r' = sanity_check r
       ∧ approve_deposit r' = approve_deposit r
       ∧ title_match_file_metadata r'
         = test_title_match_in_file_metadata E p "/Title" (9 # 10)
       ∧ extracted_publisher_tags_in_file_metadata r'
         = Some (extract_publisher_tags_from_file_metadata p)
       ∧ (extract_publisher_tags_from_file_metadata p ≠ [] →
          smur_prob r' = 0%Z ∧ am_prob r' = 0%Z)
       ∧ (NoDup (possible_versions s) → NoDup (possible_versions s')))
    R.
Proof.
  unfold pdf_metadata_tests. osteps.
  destruct (extract_publisher_tags_from_file_metadata p) as [|tag tags] eqn:Htags.
  - destruct r. rsimpl. osteps. rsimpl. done.
  - destruct r. rsimpl. osteps. rsimpl. repeat split; try done.
    intros Hnd. by do 2 apply exclude_from_NoDup.
Qed.

Lemma pdf_text_tests_outcome p r s R :
  (services_respond E ∧ ∃ cc, find_cc_statement_in_extracted_text E p = Ret cc)
  ∨ (∀ s e, R s e) →
  outcome (pdf_text_tests E p r) s
    (λ s' r',
       possible_versions s' = possible_versions s
       ∧ ∃ t cc,
           test_title_match_in_extracted_text E p = Ret t
           ∧ find_cc_statement_in_extracted_text E p = Ret cc
           ∧ core r'
             = core (set_cc_match_extracted_text cc
                       (set_title_match_extracted_text t
                          (set_long_enough
                             (test_length_of_extracted_text p default_min_length) r))))
    R.
Proof.
  intros HR. unfold pdf_text_tests. osteps.
  destruct (test_title_match_in_extracted_text E p) as [t|e] eqn:Ht; cycle 1.
  { destruct HR as [[HE _]|HR]; [|by apply HR].
    destruct (test_title_match_in_extracted_text_returns E HE p); congruence. }
  osteps.
  destruct (find_doi_in_extracted_text E p) as [doi|e] eqn:Hdoi; cycle 1.
  { destruct HR as [[HE _]|HR]; [|by apply HR].
    destruct (find_doi_in_extracted_text_returns E HE p); congruence. }
  apply outcome_bind.
  lazymatch goal with |- outcome _ _ ?Q' _ => set (K := Q') end.
  assert (Hcc : ∀ r0 s0,
    core r0 = core (set_title_match_extracted_text t
                      (set_long_enough
                         (test_length_of_extracted_text p default_min_length) r)) →
    possible_versions s0 = possible_versions s →
    K s0 r0).
  { intros r0 s0 Hr0 Hs0. subst K. osteps.
    destruct (find_cc_statement_in_extracted_text E p) as [cc|e] eqn:Hcc; cycle 1.
    { destruct HR as [[_ [cc' Hcc']]|HR]; [congruence | by apply HR]. }
    osteps. split; [done|]. exists t, cc. repeat split; try done.
    destruct r0, r. rsimpl. by simplify_eq. }
  clearbody K.
  destruct doi as [m|]; osteps.
  - unfold test_valid_doi_in_extracted_text.
    destruct (test_doi_resolves E p (Some (mr_match m))) as [v|e] eqn:Hv; cycle 1.
    { destruct HR as [[HE _]|HR]; [|by apply HR].
      destruct (test_doi_resolves_returns E HE p (Some (mr_match m))); congruence. }
    osteps. apply Hcc; [by destruct r | done].
  - apply Hcc; done.
Qed.

Lemma pdf_cermine_tests_outcome p r s R :
  services_respond E ∨ (∀ s e, R s e) →
  outcome (pdf_cermine_tests E p r) s
    (λ s' r', possible_versions s' = possible_versions s ∧ core r' = core r) R.
Proof.
  intros HR. unfold pdf_cermine_tests. osteps. ocase; osteps.
  - unfold test_valid_doi_in_cermine_xml.
    destruct (test_doi_resolves E p (cerm_doi p)) as [v|e] eqn:Hv; cycle 1.
    { destruct HR as [HE|HR]; [|by apply HR].
      destruct (test_doi_resolves_returns E HE p (cerm_doi p)); congruence. }
    osteps. split; [done|]. by destruct r.
  - split; [done|]. by destruct r.
Qed.

Lemma pdf_logo_tests_outcome p r s R :
  outcome (pdf_logo_tests p r) s
    (λ s' r',
       (NoDup (possible_versions s) → NoDup (possible_versions s'))
       ∧ core r' = core r)
    R.
Proof.
  unfold pdf_logo_tests. osteps. ocase; osteps.
  - unfold refine_by_logos, outcome. rsimpl. split; [|by destruct r].
    apply exclude_uncorroborated_NoDup.
  - split; [done | by destruct r].
Qed.

End Stages.

(** ** The workflows up to their decision, and the decisions *)

Lemma outcome_post {A} (m : M A) s (Q Q' : ClassAttrs → A → Prop) R :
  outcome m s Q R → (∀ s' a, Q s' a → Q' s' a) → outcome m s Q' R.
Proof. intros H HQ. eapply outcome_mono; eauto. Qed.

Ltac ochain lem :=
  apply outcome_bind; eapply outcome_post; [apply lem; try done | cbv beta].

Section Workflows.

Context (E : Env).
Implicit Types (p : Parser) (r : ArtemisResult) (s : ClassAttrs)
  (R : ClassAttrs → exn → Prop).

(** The PDF workflow reaches its decision with the tests recorded,
    unless a collaborator raises. *)
Lemma PdfParser_parse_outcome p s (Q : ClassAttrs → Response → Prop) R :
  (services_respond E ∧ ∃ cc, find_cc_statement_in_extracted_text E p = Ret cc)
  ∨ (∀ s e, R s e) →
  (∀ s' r,
     pdf_tested E p r →
     (NoDup (possible_versions s) → NoDup (possible_versions s')) →
     outcome (r <- pdf_decision E p r ;; json_response r) s' Q R) →
  outcome (PdfParser_parse E p) s Q R.
Proof.
  intros HR HQ. unfold PdfParser_parse. cbv zeta.
  ochain pdf_metadata_tests_outcome.
  intros s1 r1 (Hsan1 & Happ1 & Htm1 & Htags1 & Hprob1 & Hnd1).
  ochain pdf_text_tests_outcome.
  intros s2 r2 (Hpv2 & t & cc & Ht & Hcc & Hcore2).
  ochain pdf_cermine_tests_outcome; [destruct HR as [[? _]|?]; auto|].
  intros s3 r3 (Hpv3 & Hcore3).
  ochain pdf_logo_tests_outcome.
  intros s4 r4 (Hnd4 & Hcore4).
  apply HQ.
  - rewrite Hcore3, Hcore2 in Hcore4. clear Hcore3 Hcore2.
    destruct r1, r4. rsimpl. simplify_eq. done.
  - intros Hnd. apply Hnd4. rewrite Hpv3, Hpv2. by apply Hnd1.
Qed.

(** The same for the DOCX workflow. *)
Lemma DocxParser_parse_outcome p s (Q : ClassAttrs → Response → Prop) R :
  services_respond E ∨ (∀ s e, R s e) →
  (∀ s' r,
     docx_tested E p r →
     possible_versions s' = exclude_from [c_P E; c_VOR E] (possible_versions s) →
     outcome (r <- docx_decision p r ;; json_response r) s' Q R) →
  outcome (DocxParser_parse E p) s Q R.
Proof.
  intros HR HQ. unfold DocxParser_parse. osteps.
  destruct (test_title_match_in_extracted_text E p) as [t|e] eqn:Ht; cycle 1.
  { destruct HR as [HE|HR]; [|by apply HR].
    destruct (test_title_match_in_extracted_text_returns E HE p); congruence. }
  ostep. cbv beta. apply HQ; [|done].
  repeat split; try done.
Qed.

Lemma sane_long_enough r : sane r = true → long_enough r = Some true.
Proof.
  unfold sane. intros [Hl _]%andb_true_iff.
  by destruct (long_enough r) as [[]|].
Qed.

(** The decision of the DOCX workflow. *)
Lemma docx_decision_outcome p r s R :
  sanity_check r = None → approve_deposit r = false →
  is_some (dec_version p) = true ∨ sane r = false ∨ (∀ s e, R s e) →
  outcome (docx_decision p r) s
    (λ s' r',
       s' = s
       ∧ if sane r
         then sanity_check r' = Some true
              ∧ ∃ v, dec_version p = Some v
                     ∧ approve_deposit r' = str_in (PyStr.lower v) (possible_versions s)
         else sanity_check r' = None ∧ approve_deposit r' = false)
    R.
Proof.
  intros Hsan Happ Hv. unfold docx_decision, dec_version_lower, insane_reason.
  destruct (sane r) eqn:Hsane.
  - cbv zeta. destruct (dec_version p) as [v|] eqn:Hdv.
    + osteps. destruct (str_in (PyStr.lower v) (possible_versions s)) eqn:Hin;
        osteps; (split; [done|]); destruct r; rsimpl; (split; [done|]);
        exists v; by rewrite ?Hin.
    + osteps. destruct Hv as [Hv|[Hv|Hv]]; [done|done|apply Hv].
  - destruct (is_true (long_enough r)); osteps; destruct r; rsimpl; by simplify_eq.
Qed.

(** The decision of the PDF workflow. *)
Lemma pdf_decision_outcome p r s R :
  sanity_check r = None → approve_deposit r = false →
  is_some (dec_version p) = true ∨ sane r = false ∨ (∀ s e, R s e) →
  outcome (pdf_decision E p r) s
    (λ s' r',
       smur_prob r' = smur_prob r ∧ am_prob r' = am_prob r
       ∧ if sane r then
           sanity_check r' = Some true
           ∧ if nonempty (extracted_publisher_tags_in_file_metadata r)
                || is_some (cc_match_extracted_text r)
             then
               possible_versions s'
               = exclude_from [c_SMUR E; c_AM E] (possible_versions s)
               ∧ approve_deposit r' = is_some (cc_match_extracted_text r)
               ∧ reason r'
                 = Some (if is_some (cc_match_extracted_text r)
                         then "Create Commons licence detected in extracted text"
                         else "Publisher-generated version; no evidence of CC licence")
             else
               possible_versions s' = possible_versions s
               ∧ ∃ v, dec_version p = Some v
                      ∧ approve_deposit r' = str_in (PyStr.lower v) (author_versions E)
         else sanity_check r' = None ∧ approve_deposit r' = false ∧ s' = s)
    R.
Proof.
  intros Hsan Happ Hv. unfold pdf_decision, dec_version_lower, insane_reason.
  destruct (sane r) eqn:Hsane.
  - cbv zeta.
    assert (Hset : ∀ v, cc_match_extracted_text (set_sanity_check v r)
                        = cc_match_extracted_text r) by (intros; by destruct r).
    assert (Hset' : ∀ v, extracted_publisher_tags_in_file_metadata (set_sanity_check v r)
                        = extracted_publisher_tags_in_file_metadata r)
      by (intros; by destruct r).
    rewrite Hset'. rewrite !Hset.
    destruct (nonempty _ || is_some _) eqn:Hpub.
    + osteps. destruct (dec_version p) as [v|] eqn:Hdv; cycle 1.
      { osteps. destruct Hv as [Hv|[Hv|Hv]]; [done|done|apply Hv]. }
      osteps.
      destruct (str_in (PyStr.lower v) (author_versions E));
        destruct r; rsimpl;
        destruct cc_match_extracted_text0; cbn [is_some]; osteps; rsimpl; done.
    + destruct (dec_version p) as [v|] eqn:Hdv; cycle 1.
      { osteps. destruct Hv as [Hv|[Hv|Hv]]; [done|done|apply Hv]. }
      osteps.
      destruct (str_in (PyStr.lower v) (author_versions E)) eqn:Hin;
        osteps; destruct r; rsimpl; repeat split; try done;
        exists v; by rewrite ?Hin.
  - destruct (is_true (long_enough r)); osteps; destruct r; rsimpl; by simplify_eq.
Qed.

(** Every response of a workflow satisfies [verdict_ok]; the workflow
    returns when the collaborators respond and the declared version is
    there to be read. *)
Lemma parse_outcome k p s R :
  (well_behaved E
   ∧ (is_some (dec_version p) = true
      ∨ test_length_of_extracted_text p default_min_length ≠ Some true))
  ∨ (∀ s e, R s e) →
  outcome (parse E k p) s (λ _ resp, verdict_ok p resp) R.
Proof.
  intros HR.
  assert (HR1 : services_respond E ∨ (∀ s e, R s e))
    by (destruct HR as [[[? _] _]|?]; auto).
  assert (HR1' : (services_respond E
                  ∧ ∃ cc, find_cc_statement_in_extracted_text E p = Ret cc)
                 ∨ (∀ s e, R s e)).
  { destruct HR as [[[HE Hcat] _]|?]; [left|by right].
    split; [done|]. by apply find_cc_statement_in_extracted_text_returns. }
  assert (HR2 : ∀ r, long_enough r = test_length_of_extracted_text p default_min_length →
                is_some (dec_version p) = true ∨ sane r = false ∨ (∀ s e, R s e)).
  { intros r Hl. destruct HR as [[_ [Hv|Hlen]]|HR]; auto.
    right; left. destruct (sane r) eqn:Hsane; [|done].
    apply sane_long_enough in Hsane. congruence. }
  destruct k; cbn [parse].
  - apply DocxParser_parse_outcome; [done|].
    intros s' r (Hsan & Happ & Hlen & _) _.
    ochain docx_decision_outcome; [by apply HR2|].
    intros s2 r2 [-> Hdec]. apply outcome_json.
    intros resp Ha Hs _ _ _. unfold verdict_ok. rewrite Ha, Hs.
    destruct (sane r) eqn:Hsane.
    + destruct Hdec as [Hs2 _]. rewrite Hs2.
      split; [by left|]. split; [done|].
      intros Hne. exfalso. apply Hne. rewrite <- Hlen. by apply sane_long_enough.
    + destruct Hdec as [Hs2 Ha2]. rewrite Hs2, Ha2.
      split; [by right|]. split; done.
  - apply PdfParser_parse_outcome; [done|].
    intros s' r (Hsan & Happ & Hlen & _) _.
    ochain pdf_decision_outcome; [by apply HR2|].
    intros s2 r2 (_ & _ & Hdec). apply outcome_json.
    intros resp Ha Hs _ _ _. unfold verdict_ok. rewrite Ha, Hs.
    destruct (sane r) eqn:Hsane.
    + destruct Hdec as [Hs2 _]. rewrite Hs2.
      split; [by left|]. split; [done|].
      intros Hne. exfalso. apply Hne. rewrite <- Hlen. by apply sane_long_enough.
    + destruct Hdec as (Hs2 & Ha2 & _). rewrite Hs2, Ha2.
      split; [by right|]. split; done.
Qed.

End Workflows.

(** ** The candidate list over a run *)

Section KeepsNoDup.

Context {A B : Type}.

Lemma keeps_bind (m : M A) (k : A → M B) :
  keeps_NoDup m → (∀ a, keeps_NoDup (k a)) → keeps_NoDup (bind m k).
Proof.
  intros Hm Hk s Hs. unfold bind. specialize (Hm s Hs).
  destruct (m s) as [s1 [a|e]]; [by apply Hk | done].
Qed.

Lemma keeps_ret (a : A) : keeps_NoDup (ret a).
Proof. by intros s Hs. Qed.

Lemma keeps_raise e : keeps_NoDup (raise (A := A) e).
Proof. by intros s Hs. Qed.

Lemma keeps_lift (x : result A) : keeps_NoDup (lift x).
Proof. by intros s Hs. Qed.

End KeepsNoDup.

Lemma keeps_append name v : keeps_NoDup (append_test_result name v).
Proof. by intros s Hs. Qed.

Lemma keeps_exclude e_list : keeps_NoDup (exclude_versions e_list).
Proof. intros s Hs. by apply exclude_from_NoDup. Qed.

Lemma keeps_get : keeps_NoDup get_possible_versions.
Proof. by intros s Hs. Qed.

Lemma keeps_json r : keeps_NoDup (json_response r).
Proof. by intros s Hs. Qed.

Lemma keeps_refine logos : keeps_NoDup (refine_by_logos logos).
Proof. intros s Hs. by apply exclude_uncorroborated_NoDup. Qed.

Ltac keeps :=
  repeat first
    [ apply keeps_bind; [|intros ?]
    | apply keeps_ret | apply keeps_raise | apply keeps_lift
    | apply keeps_append | apply keeps_exclude | apply keeps_get
    | apply keeps_json | apply keeps_refine
    | lazymatch goal with
      | |- keeps_NoDup (if ?b then _ else _) => destruct b
      | |- keeps_NoDup (match ?x with _ => _ end) => destruct x
      end
    | progress cbv beta zeta ].

Lemma parse_keeps_NoDup (E : Env) (k : file_kind) (p : Parser) :
  keeps_NoDup (parse E k p).
Proof.
  destruct k; cbn [parse].
  - unfold DocxParser_parse, docx_decision, dec_version_lower. keeps.
  - unfold PdfParser_parse, pdf_metadata_tests, pdf_text_tests, pdf_cermine_tests,
      pdf_logo_tests, pdf_decision, dec_version_lower. keeps.
Qed.

Lemma evaluate_all_NoDup (E : Env) (files : list (file_kind * Parser)) (s : ClassAttrs) :
  NoDup (possible_versions s) →
  NoDup (possible_versions (fst (evaluate_all E files s))).
Proof.
  revert s. induction files as [|[k p] files IH]; intros s Hs; [done|].
  cbn [evaluate_all]. pose proof (parse_keeps_NoDup E k p s Hs) as H1.
  destruct (parse E k p s) as [s1 x]. specialize (IH s1 H1).
  by destruct (evaluate_all E files s1).
Qed.

(** When the four version constants differ, the candidate list that a
    new result object reads never holds a version twice. *)
Lemma attrs_after_NoDup (E : Env) (files : list (file_kind * Parser)) :
  NoDup [c_SMUR E; c_AM E; c_P E; c_VOR E] →
  NoDup (possible_versions (attrs_after E files)).
Proof. intros H. by apply evaluate_all_NoDup. Qed.

(** ** The claims about the workflows *)


(** C1. [approve_deposit] starts as [False] on a new result object, and
    in every response of either workflow [approve_deposit = True] implies
    [sanity_check = True], the length test having succeeded. *)
Theorem approve_implies_sanity (E : Env) (k : file_kind) (p : Parser)
    (s s' : ClassAttrs) (resp : Response) :
  parse E k p s = (s', Ret resp) →
  resp_approve_deposit resp = true →
  approve_deposit (new_result (file_name p)) = false
  ∧ resp_sanity_check resp = Some true
  ∧ test_length_of_extracted_text p default_min_length = Some true.
Proof.
  intros Hrun Happ.
  pose proof (parse_outcome E k p s (λ _ _, True) (or_intror (λ _ _, I))) as Hout.
  rewrite outcome_partial in Hout.
  destruct (Hout _ _ Hrun) as (_ & Hsan & Hlen).
  split; [done|]. split; [by apply Hsan|].
  destruct (decide (test_length_of_extracted_text p default_min_length = Some true))
    as [|Hne]; [done|].
  destruct (Hlen Hne) as [_ Hno]. congruence.
Qed.

Lemma approve_implies_sanity_witness :
  ∃ s' resp,
    parse Sample.online Docx Sample.manuscript_docx (initial_attrs Sample.online)
    = (s', Ret resp)
    ∧ resp_approve_deposit resp = true
    ∧ resp_sanity_check resp = Some true.
Proof.
  assert (Hrun : ∃ s' resp,
    parse Sample.online Docx Sample.manuscript_docx (initial_attrs Sample.online)
    = (s', Ret resp) ∧ resp_approve_deposit resp = true).
  { vm_compute. eexists _, _. split; reflexivity. }
  destruct Hrun as (s' & resp & Hrun & Happ).
  exists s', resp. split; [exact Hrun|]. split; [exact Happ|].
  exact (proj1 (proj2 (approve_implies_sanity _ _ _ _ _ _ Hrun Happ))).
Defined.

(** C10. In every response of either workflow [sanity_check] is [True]
    or unset ([None]); it is never [False]. *)
Theorem sanity_check_never_false (E : Env) (k : file_kind) (p : Parser)
    (s s' : ClassAttrs) (resp : Response) :
  parse E k p s = (s', Ret resp) →
  resp_sanity_check resp = Some true ∨ resp_sanity_check resp = None.
Proof.
  intros Hrun.
  pose proof (parse_outcome E k p s (λ _ _, True) (or_intror (λ _ _, I))) as Hout.
  rewrite outcome_partial in Hout.
  by destruct (Hout _ _ Hrun) as (Hsan & _).
Qed.

Lemma sanity_check_never_false_witness :
  ∃ s' resp,
    parse Sample.online Pdf Sample.short_pdf (initial_attrs Sample.online)
    = (s', Ret resp)
    ∧ (resp_sanity_check resp = Some true ∨ resp_sanity_check resp = None).
Proof.
  assert (Hrun : ∃ s' resp,
    parse Sample.online Pdf Sample.short_pdf (initial_attrs Sample.online)
    = (s', Ret resp)).
  { vm_compute. by eexists _, _. }
  destruct Hrun as (s' & resp & Hrun).
  exists s', resp. split; [exact Hrun|].
  exact (sanity_check_never_false _ _ _ _ _ _ Hrun).
Defined.












(** C2. The class attributes outlive an evaluation.  After the publisher
    PDF the candidate list that the next result object reads holds two
    versions, not four, and the map of test results holds the PDF's
    entries; the manuscript that is approved when evaluated first is
    rejected when evaluated after the PDF, and its response reports the
    PDF's publisher tags. *)
Theorem class_attributes_outlive_evaluation :
  let E := Sample.online in
  let pdf := (Pdf, Sample.publisher_pdf) in
  let docx := (Docx, Sample.manuscript_docx) in
  possible_versions (attrs_after E [pdf]) = ["proof"; "version of record"]
  ∧ test_results (attrs_after E [pdf]) !! "extract_publisher_tags_from_file_metadata"
    = Some (VTags ["/doi"])
  ∧ approvals (snd (evaluate_all E [docx] (initial_attrs E))) = [Some true]
  ∧ approvals (snd (evaluate_all E [pdf; docx] (initial_attrs E)))
    = [Some false; Some false]
  ∧ match snd (evaluate_all E [pdf; docx] (initial_attrs E)) with
    | [_; Ret resp] =>
        resp_test_results resp !! "extract_publisher_tags_from_file_metadata"
        = Some (VTags ["/doi"])
    | _ => False
    end.
Proof. repeat split; by vm_compute. Qed.

(** * Further properties *)

(** ** [ArtemisResult.exclude_versions] *)

Lemma exclude_from_app (e1 e2 pv : list string) :
  exclude_from (e1 ++ e2) pv = exclude_from e2 (exclude_from e1 pv).
Proof.
  revert pv. induction e1 as [|v e1 IH]; intros pv; [done|].
  cbn [app exclude_from]. apply IH.
Qed.

(** X1. Two exclusions in a row are one exclusion of the concatenated
    lists: same attributes, same returned list. *)
Theorem exclude_versions_twice (e1 e2 : list string) (s : ClassAttrs) :
  (exclude_versions e1 ;;; exclude_versions e2) s = exclude_versions (e1 ++ e2) s.
Proof.
  unfold bind, exclude_versions. cbn [possible_versions test_results].
  by rewrite exclude_from_app.
Qed.

Lemma remove_first_sublist (v : string) (l : list string) :
  remove_first v l `sublist_of` l.
Proof.
  induction l as [|x l IH]; [done|]. cbn [remove_first].
  destruct (String.eqb v x); [by apply sublist_cons | by apply sublist_skip].
Qed.

Lemma remove_first_length (v : string) (l : list string) :
  (length l ≤ S (length (remove_first v l)))%nat.
Proof.
  induction l as [|x l IH]; cbn [remove_first length]; [lia|].
  destruct (String.eqb v x); cbn [length]; lia.
Qed.

Lemma exclude_from_sublist (e_list pv : list string) :
  exclude_from e_list pv `sublist_of` pv.
Proof.
  revert pv. induction e_list as [|v e IH]; intros pv; cbn [exclude_from]; [done|].
  rewrite exclude_step. etrans; [apply IH | apply remove_first_sublist].
Qed.

Lemma exclude_from_length (e_list pv : list string) :
  (length pv ≤ length (exclude_from e_list pv) + length e_list)%nat.
Proof.
  revert pv. induction e_list as [|v e IH]; intros pv; cbn [exclude_from length]; [lia|].
  rewrite exclude_step. specialize (IH (remove_first v pv)).
  pose proof (remove_first_length v pv). lia.
Qed.

(** X2. [exclude_versions] never adds a version and never reorders: the
    new candidate list is a sublist of the old one, at most one element
    shorter per entry of [e_list]; the test results are not touched, and
    the call never raises. *)
Theorem exclude_versions_shrinks (e_list : list string) (s : ClassAttrs) :
  ∃ s', exclude_versions e_list s = (s', Ret (possible_versions s'))
        ∧ possible_versions s' `sublist_of` possible_versions s
        ∧ (length (possible_versions s)
           ≤ length (possible_versions s') + length e_list)%nat
        ∧ test_results s' = test_results s.
Proof.
  exists (mkClassAttrs (exclude_from e_list (possible_versions s)) (test_results s)).
  split; [reflexivity|]. cbn [possible_versions test_results].
  split; [apply exclude_from_sublist|]. split; [apply exclude_from_length | done].
Qed.

(** X3. On a candidate list without repetition [exclude_versions] removes
    exactly the listed versions and keeps the others in their order; two
    exclusions can then be swapped. *)
Theorem exclude_versions_removes_listed (e1 e2 : list string) (s : ClassAttrs) :
  NoDup (possible_versions s) →
  possible_versions (fst (exclude_versions e1 s))
  = filter (λ v, v ∉ e1) (possible_versions s)
  ∧ (exclude_versions e1 ;;; exclude_versions e2) s
    = (exclude_versions e2 ;;; exclude_versions e1) s.
Proof.
  intros Hnd. split; [by apply exclude_from_filter|].
  unfold bind, exclude_versions. cbn [possible_versions test_results].
  assert (Heq : exclude_from e2 (exclude_from e1 (possible_versions s))
                = exclude_from e1 (exclude_from e2 (possible_versions s))).
  { rewrite !exclude_from_filter by auto using exclude_from_NoDup.
    rewrite !list_filter_filter. apply list_filter_iff. intros v. tauto. }
  by rewrite Heq.
Qed.

Lemma exclude_versions_removes_listed_witness :
  let s := initial_attrs Sample.online in
  possible_versions (fst (exclude_versions ["proof"; "accepted manuscript"] s))
  = ["submitted manuscript under review"; "version of record"]
  ∧ (exclude_versions ["proof"] ;;; exclude_versions ["accepted manuscript"]) s
    = (exclude_versions ["accepted manuscript"] ;;; exclude_versions ["proof"]) s.
Proof.
  destruct (exclude_versions_removes_listed ["proof"] ["accepted manuscript"]
              (initial_attrs Sample.online)) as [_ Hswap].
  { apply (bool_decide_unpack _). by vm_compute. }
  split; [reflexivity | exact Hswap].
Defined.

(** ** The publisher tags of the file metadata *)

Lemma list_filter_sublist {A} (f : A → bool) (l : list A) :
  List.filter f l `sublist_of` l.
Proof.
  induction l as [|x l IH]; [done|]. cbn [List.filter].
  destruct (f x); [by apply sublist_skip | by apply sublist_cons].
Qed.

(** X4. [extract_publisher_tags_from_file_metadata] returns exactly the
    tags of the publisher vocabulary that the metadata holds with a
    non-empty value, each once and in the order of the vocabulary. *)
Theorem extract_publisher_tags_spec (p : Parser) :
  (∀ tag, tag ∈ extract_publisher_tags_from_file_metadata p
          ↔ tag ∈ PUBLISHER_PDF_METADATA_TAGS
            ∧ ∃ v, file_metadata p !! tag = Some v ∧ v ≠ "")
  ∧ extract_publisher_tags_from_file_metadata p `sublist_of` PUBLISHER_PDF_METADATA_TAGS
  ∧ NoDup (extract_publisher_tags_from_file_metadata p).
Proof.
  assert (Hsub : extract_publisher_tags_from_file_metadata p
                   `sublist_of` PUBLISHER_PDF_METADATA_TAGS)
    by apply list_filter_sublist.
  split; [|split; [done|]].
  - intros tag. unfold extract_publisher_tags_from_file_metadata.
    rewrite list_elem_of_In, filter_In, <- list_elem_of_In.
    split; intros [Hin Hv]; (split; [done|]).
    + destruct (file_metadata p !! tag) as [v|]; [|done].
      exists v. split; [done|]. by destruct v.
    + destruct Hv as (v & -> & Hv). by destruct v.
  - eapply sublist_NoDup; [|exact Hsub].
    apply (bool_decide_unpack _). by vm_compute.
Qed.

(** ** The refinement of the candidates by the detected logos *)

Section LogoRefinement.

Implicit Types (v : string) (pv acc suggested : list string)
  (logos : list PublisherLogo).

Lemma add_versions_spec (vs acc : list string) :
  NoDup acc →
  let acc' := fold_left (λ acc v, if str_in v acc then acc else (acc ++ [v])%list)
                        vs acc in
  NoDup acc' ∧ ∀ x, x ∈ acc' ↔ x ∈ acc ∨ x ∈ vs.
Proof.
  revert acc. induction vs as [|v vs IH]; intros acc Hacc; cbn [fold_left].
  - split; [done|]. intros x. rewrite elem_of_nil. tauto.
  - destruct (str_in v acc) eqn:Hin.
    + destruct (IH acc Hacc) as [Hnd Hmem]. split; [done|].
      intros x. rewrite Hmem, elem_of_cons. apply str_in_spec in Hin.
      split; [tauto|]. intros [?|[->|?]]; auto.
    + apply str_in_false in Hin.
      assert (Hacc' : NoDup (acc ++ [v])).
      { apply NoDup_app. split; [done|]. split; [|apply NoDup_singleton].
        intros x Hx ->%list_elem_of_singleton. done. }
      destruct (IH _ Hacc') as [Hnd Hmem]. split; [done|].
      intros x. rewrite Hmem, elem_of_app, list_elem_of_singleton, elem_of_cons. tauto.
Qed.

Lemma suggested_versions_from logos acc :
  NoDup acc →
  let acc' :=
    fold_left
      (λ acc dl,
         fold_left (λ acc v, if str_in v acc then acc else (acc ++ [v])%list)
                   (indicate_ms_versions dl) acc)
      logos acc in
  NoDup acc'
  ∧ ∀ x, x ∈ acc' ↔ x ∈ acc ∨ ∃ dl, dl ∈ logos ∧ x ∈ indicate_ms_versions dl.
Proof.
  revert acc. induction logos as [|dl logos IH]; intros acc Hacc; cbn [fold_left].
  - split; [done|]. intros x. split; [by left|].
    intros [?|(dl & Hdl & _)]; [done|]. by apply elem_of_nil in Hdl.
  - destruct (add_versions_spec (indicate_ms_versions dl) acc Hacc) as [Hnd Hmem].
    destruct (IH _ Hnd) as [Hnd' Hmem']. split; [done|].
    intros x. rewrite Hmem', Hmem. split.
    + intros [[?|?]|(dl' & Hdl' & Hx)]; [by left|right..].
      * exists dl. split; [left|done].
      * exists dl'. split; [by right|done].
    + intros [?|(dl' & Hdl' & Hx)]; [by left; left|].
      apply elem_of_cons in Hdl' as [->|Hdl']; [by left; right|].
      right. by exists dl'.
Qed.

Lemma remove_first_lookup pv i v :
  NoDup pv → pv !! i = Some v → remove_first v pv = (take i pv ++ drop (S i) pv)%list.
Proof.
  intros Hnd. revert i. induction Hnd as [|x l Hx Hl IH]; intros i Hi; [done|].
  destruct i as [|i]; cbn in Hi.
  - injection Hi as ->. cbn [remove_first]. by rewrite String.eqb_refl.
  - cbn [remove_first take drop app].
    destruct (String.eqb_spec v x) as [->|Hne].
    + exfalso. apply Hx. by eapply list_elem_of_lookup_2.
    + f_equal. by apply IH.
Qed.

Lemma exclude_uncorroborated_spec suggested i pv :
  NoDup pv → (i < length pv)%nat →
  exclude_uncorroborated suggested i pv
  = (filter (λ v, v ∈ suggested) (take (S i) pv) ++ drop (S i) pv)%list.
Proof.
  revert pv. induction i as [|i IH]; intros pv Hnd Hi.
  - cbn [exclude_uncorroborated].
    destruct pv as [|v pv]; [cbn in Hi; lia|]. cbn [lookup list_lookup take drop].
    destruct (str_in v suggested) eqn:Hin.
    + apply str_in_spec in Hin. rewrite filter_cons_True by done. done.
    + apply str_in_false in Hin. rewrite filter_cons_False by done.
      cbn [exclude_from]. rewrite exclude_step. cbn [remove_first].
      by rewrite String.eqb_refl.
  - cbn [exclude_uncorroborated].
    destruct (lookup_lt_is_Some_2 pv (S i) Hi) as [v Hv]. rewrite Hv.
    assert (Htake : take (S (S i)) pv = (take (S i) pv ++ [v])%list)
      by by apply take_S_r.
    assert (Hdrop : drop (S i) pv = v :: drop (S (S i)) pv)
      by by apply drop_S.
    destruct (str_in v suggested) eqn:Hin.
    + apply str_in_spec in Hin. rewrite IH by (done || lia).
      rewrite Htake, filter_app, filter_cons_True by done.
      rewrite Hdrop, <- app_assoc. done.
    + apply str_in_false in Hin. cbn [exclude_from]. rewrite exclude_step.
      rewrite (remove_first_lookup pv (S i) v) by done.
      assert (Hlen : length (take (S i) pv) = S i) by (rewrite length_take; lia).
      rewrite IH.
      * rewrite take_app_length' by done.
        rewrite drop_app_length' by done.
        rewrite Htake, filter_app, filter_cons_False by done.
        by rewrite filter_nil, app_nil_r.
      * eapply sublist_NoDup; [exact Hnd|].
        rewrite <- (remove_first_lookup pv (S i) v) by done.
        apply remove_first_sublist.
      * rewrite length_app, Hlen. lia.
Qed.

End LogoRefinement.

(** X5. The versions suggested by the detected logos are the versions
    that some detected logo indicates, each listed once. *)
Theorem suggested_versions_spec (logos : list PublisherLogo) :
  NoDup (suggested_versions logos)
  ∧ ∀ v, v ∈ suggested_versions logos
         ↔ ∃ dl, dl ∈ logos ∧ v ∈ indicate_ms_versions dl.
Proof.
  destruct (suggested_versions_from logos [] (NoDup_nil_2)) as [Hnd Hmem].
  split; [exact Hnd|]. intros v. unfold suggested_versions. rewrite Hmem.
  rewrite elem_of_nil. tauto.
Qed.

(** X6. The logo stage of the PDF workflow, run on a candidate list
    without repetition, returns; with no logo detected it leaves the
    candidates as they are, otherwise it keeps exactly the candidates that
    a detected logo suggests, in their order. *)
Theorem logo_stage_keeps_suggested (p : Parser) (r : ArtemisResult) (s : ClassAttrs) :
  NoDup (possible_versions s) →
  ∃ s' r',
    pdf_logo_tests p r s = (s', Ret r')
    ∧ possible_versions s'
      = match detect_publisher_logos p with
        | [] => possible_versions s
        | logos => filter (λ v, v ∈ suggested_versions logos) (possible_versions s)
        end.
Proof.
  intros Hnd. apply outcome_returns. unfold pdf_logo_tests. osteps.
  destruct (detect_publisher_logos p) as [|dl logos] eqn:Hlogos.
  - destruct r. rsimpl. osteps. done.
  - destruct r. rsimpl. osteps. unfold refine_by_logos, outcome. rsimpl.
    destruct (possible_versions s) as [|v pv] eqn:Hpv; [done|].
    replace (length (v :: pv) - 1) with (length pv) by (cbn [length]; lia).
    rewrite exclude_uncorroborated_spec by (done || (cbn [length]; lia)).
    rewrite (take_ge (v :: pv)) by (cbn [length]; lia).
    rewrite (drop_ge (v :: pv)) by (cbn [length]; lia).
    by rewrite app_nil_r.
Qed.

Lemma logo_stage_keeps_suggested_witness :
  let p := {| file_name := "paper.pdf"; dec_ms_title := None; dec_version := None;
              metadata := ∅; file_metadata := ∅; extracted_text := "";
              cerm_doi := None; cerm_title := None; image_files := ["img_1_1.png"];
              matching_logos :=
                [ {| logo_name := "publisher";
                     indicate_ms_versions := ["version of record"; "proof"] |} ] |} in
  ∃ s' r',
    pdf_logo_tests p (new_result "paper.pdf") (initial_attrs Sample.online) = (s', Ret r')
    ∧ possible_versions s' = ["proof"; "version of record"].
Proof.
  intros p.
  destruct (logo_stage_keeps_suggested p (new_result "paper.pdf")
              (initial_attrs Sample.online)) as (s' & r' & Hrun & Hpv).
  { apply (bool_decide_unpack _). by vm_compute. }
  exists s', r'. split; [exact Hrun|]. rewrite Hpv. by vm_compute.
Defined.

(** ** More on the exact search *)

Lemma append_nil_l (s : string) : "" ++ s = s.
Proof. reflexivity. Qed.

Lemma append_cons (c : ascii) (s t : string) : String c s ++ t = String c (s ++ t).
Proof. reflexivity. Qed.

Section ExactSearch.

Implicit Types (c : ascii) (lit s needle : string).

(** The search of C6, written out: a literal search of the normalised
    text. *)
Lemma exact_search_eq (E : Env) (p : Parser) needle (span : nat * nat) :
  needle ≠ "" →
  find_match_in_extracted_text E p (Some needle) true span 0
  = Ret (match Regex.search_literal needle (continuous_text p) with
         | Some m =>
             Some {| mr_match := Regex.m_group m;
                     mr_in_expected_position :=
                       (fst span <=? Regex.m_start m)%nat
                       && (Regex.m_end m <=? snd span)%nat |}
         | None => None
         end).
Proof.
  intros Hne. unfold find_match_in_extracted_text, query_pattern.
  assert (PyStr.opt_truthy (Some needle) = true) as ->.
  { destruct needle; [done | reflexivity]. }
  cbn [bind_result]. unfold search_pattern.
  change (is_zero 0) with true. cbn [bind_result].
  unfold regex_search. rewrite parse_literal_escape.
  by destruct (Regex.search_literal needle (continuous_text p)).
Qed.

Lemma prefix_ci_take lit s :
  Regex.prefix_ci lit s = true →
  PyStr.lower (PyStr.take (PyStr.len lit) s) = PyStr.lower lit
  ∧ ∃ post, s = PyStr.take (PyStr.len lit) s ++ post.
Proof.
  revert s. induction lit as [|a lit IH]; intros s Hp.
  - split; [by destruct s|]. exists s. by destruct s.
  - destruct s as [|b s]; [done|]. cbn [Regex.prefix_ci] in Hp.
    apply andb_true_iff in Hp as [Hab Hp]. apply Ascii.eqb_eq in Hab.
    destruct (IH s Hp) as [Hl [post Hs]].
    change (PyStr.len (String a lit)) with (S (PyStr.len lit)).
    cbn [PyStr.take PyStr.lower]. split; [by rewrite Hab, Hl|].
    exists post. rewrite append_cons. by f_equal.
Qed.

Lemma search_literal_from_leftmost lit s pos m :
  Regex.search_literal_from lit s pos = Some m →
  ∃ pre post,
    s = pre ++ Regex.m_group m ++ post
    ∧ Regex.m_start m = (pos + PyStr.len pre)%nat
    ∧ Regex.m_end m = (Regex.m_start m + PyStr.len lit)%nat
    ∧ PyStr.lower (Regex.m_group m) = PyStr.lower lit
    ∧ ∀ pre' mid' post',
        s = pre' ++ mid' ++ post' → PyStr.lower mid' = PyStr.lower lit →
        (PyStr.len pre ≤ PyStr.len pre')%nat.
Proof.
  revert pos. induction s as [|b s IH]; intros pos; cbn [Regex.search_literal_from].
  - destruct (Regex.prefix_ci lit "") eqn:Hp; [|done].
    intros [= <-]. cbn [Regex.m_group Regex.m_start Regex.m_end].
    destruct (prefix_ci_take _ _ Hp) as [Hl [post Hs]].
    exists "", post. rewrite append_nil_l. cbn [PyStr.len String.length].
    repeat split; [done | lia | done | intros; lia].
  - destruct (Regex.prefix_ci lit (String b s)) eqn:Hp.
    + intros [= <-]. cbn [Regex.m_group Regex.m_start Regex.m_end].
      destruct (prefix_ci_take _ _ Hp) as [Hl [post Hs]].
      exists "", post. rewrite append_nil_l. cbn [PyStr.len String.length].
      repeat split; [done | lia | done | intros; lia].
    + intros Hm. destruct (IH _ Hm) as (pre & post & Hs & Hst & Hen & Hl & Hmin).
      exists (String b pre), post. rewrite append_cons.
      change (PyStr.len (String b pre)) with (S (PyStr.len pre)).
      repeat split; [by rewrite <- Hs | lia | done | done |].
      intros pre' mid' post' Hs' Hl'. destruct pre' as [|b' pre'].
      * rewrite append_nil_l in Hs'.
        assert (Regex.prefix_ci lit (String b s) = true) as Hc; [|congruence].
        apply prefix_ci_spec. by exists mid', post'.
      * rewrite append_cons in Hs'. injection Hs' as _ Hs'.
        specialize (Hmin pre' mid' post' Hs' Hl').
        change (PyStr.len (String b' pre')) with (S (PyStr.len pre')). lia.
Qed.

End ExactSearch.

(** X7. A match of the exact search is the leftmost occurrence of the
    needle in the normalised text: the matched text equals the needle up
    to letter case, no occurrence starts earlier, and the position flag
    says whether this occurrence lies inside the expected span. *)
Theorem exact_search_leftmost (E : Env) (p : Parser) (needle : string)
    (expected_span : nat * nat) (m : MatchResult) :
  needle ≠ "" →
  find_match_in_extracted_text E p (Some needle) true expected_span 0 = Ret (Some m) →
  ∃ pre post,
    continuous_text p = pre ++ mr_match m ++ post
    ∧ PyStr.lower (mr_match m) = PyStr.lower needle
    ∧ (∀ pre' mid' post',
         continuous_text p = pre' ++ mid' ++ post' →
         PyStr.lower mid' = PyStr.lower needle →
         (PyStr.len pre ≤ PyStr.len pre')%nat)
    ∧ mr_in_expected_position m
      = (fst expected_span <=? PyStr.len pre)%nat
        && (PyStr.len pre + PyStr.len needle <=? snd expected_span)%nat.
Proof.
  intros Hne Hfind. rewrite exact_search_eq in Hfind by done.
  unfold Regex.search_literal in Hfind.
  destruct (Regex.search_literal_from needle (continuous_text p) 0) as [mo|] eqn:Hm;
    [|done].
  injection Hfind as <-. cbn [mr_match mr_in_expected_position].
  destruct (search_literal_from_leftmost _ _ _ _ Hm)
    as (pre & post & Hs & Hst & Hen & Hl & Hmin).
  exists pre, post. repeat split; try done.
  rewrite Hen, Hst. done.
Qed.

Lemma exact_search_leftmost_witness :
  let p := Sample.file "a.pdf" None None ∅ "On typing; more on Typing" in
  let m := {| mr_match := "typing"; mr_in_expected_position := true |} in
  find_match_in_extracted_text Sample.online p (Some "TYPING") true (0, 10)%nat 0
  = Ret (Some m)
  ∧ ∃ pre post,
      continuous_text p = pre ++ mr_match m ++ post
      ∧ (PyStr.len pre ≤ 3)%nat
      ∧ mr_in_expected_position m
        = (0 <=? PyStr.len pre)%nat && (PyStr.len pre + 6 <=? 10)%nat.
Proof.
  intros p m.
  assert (Hrun : find_match_in_extracted_text Sample.online p (Some "TYPING") true
                   (0, 10)%nat 0 = Ret (Some m)) by reflexivity.
  split; [exact Hrun|].
  destruct (exact_search_leftmost Sample.online p "TYPING" (0, 10)%nat m
              ltac:(discriminate) Hrun) as (pre & post & Hs & Hl & Hmin & Hflag).
  exists pre, post. split; [exact Hs|]. split; [|exact Hflag].
  apply (Hmin "On " "typing" "; more on Typing"); reflexivity.
Defined.

(** ** The normalisation of the text *)

Section Normalisation.

Implicit Types (c : ascii) (s t : string).

Lemma lower_char_newline c :
  (PyStr.code (PyStr.lower_char c) =? 10)%nat = (PyStr.code c =? 10)%nat.
Proof. destruct c as [[] [] [] [] [] [] [] []]; reflexivity. Qed.

Lemma no_newline_lower s : no_newline (PyStr.lower s) = no_newline s.
Proof.
  induction s as [|c s IH]; [done|]. cbn [PyStr.lower no_newline].
  by rewrite lower_char_newline, IH.
Qed.

Lemma no_newline_app s t : no_newline (s ++ t) = no_newline s && no_newline t.
Proof.
  induction s as [|c s IH]; [done|]. rewrite append_cons. cbn [no_newline].
  by rewrite IH, andb_assoc.
Qed.

Lemma no_newline_replace_newline s : no_newline (PyStr.replace_newline s) = true.
Proof.
  induction s as [|c s IH]; [done|]. cbn [PyStr.replace_newline no_newline].
  rewrite IH, andb_true_r. by destruct (PyStr.code c =? 10)%nat eqn:Hc; [|rewrite Hc].
Qed.

Lemma replace_two_spaces_cons c d s :
  PyStr.replace_two_spaces (String c (String d s))
  = if Ascii.eqb c " " && Ascii.eqb d " "
    then String " " (PyStr.replace_two_spaces s)
    else String c (PyStr.replace_two_spaces (String d s)).
Proof. reflexivity. Qed.

Lemma no_newline_replace_two_spaces s :
  no_newline s = true → no_newline (PyStr.replace_two_spaces s) = true.
Proof.
  cut (∀ s, (no_newline s = true → no_newline (PyStr.replace_two_spaces s) = true)
            ∧ ∀ c, no_newline (String c s) = true →
                   no_newline (PyStr.replace_two_spaces (String c s)) = true).
  { intros H. apply H. }
  clear s. induction s as [|d s [IH1 IH2]].
  - split; [done|]. intros c Hc. cbn [PyStr.replace_two_spaces]. done.
  - split; [apply IH2|]. intros c Hc.
    cbn [no_newline] in Hc. apply andb_true_iff in Hc as [Hc Hd].
    rewrite replace_two_spaces_cons.
    destruct (Ascii.eqb c " " && Ascii.eqb d " ").
    + cbn [no_newline]. cbn [no_newline] in Hd.
      apply andb_true_iff in Hd as [_ Hs]. by rewrite IH1.
    + cbn [no_newline]. rewrite Hc. by rewrite (IH2 d Hd).
Qed.

Lemma replace_newline_clean s : no_newline s = true → PyStr.replace_newline s = s.
Proof.
  induction s as [|c s IH]; [done|]. cbn [no_newline PyStr.replace_newline].
  intros [Hc Hs]%andb_true_iff. rewrite (IH Hs).
  by destruct (PyStr.code c =? 10)%nat.
Qed.

Lemma replace_two_spaces_clean s :
  no_double_space s = true → PyStr.replace_two_spaces s = s.
Proof.
  cut (∀ s, (no_double_space s = true → PyStr.replace_two_spaces s = s)
            ∧ ∀ c, no_double_space (String c s) = true →
                   PyStr.replace_two_spaces (String c s) = String c s).
  { intros H. apply H. }
  clear s. induction s as [|d s [IH1 IH2]].
  - split; [done|]. done.
  - split; [apply IH2|]. intros c Hc.
    cbn [no_double_space] in Hc. apply andb_true_iff in Hc as [Hcd Hd].
    rewrite replace_two_spaces_cons.
    destruct (Ascii.eqb c " " && Ascii.eqb d " "); [done|].
    by rewrite (IH2 d Hd).
Qed.

End Normalisation.

(** X8. The normalised text holds no line break, so the exact search for
    a needle that holds one finds nothing. *)
Theorem needle_with_newline_not_found (E : Env) (p : Parser) (needle : string)
    (expected_span : nat * nat) :
  no_newline needle = false →
  no_newline (continuous_text p) = true
  ∧ find_match_in_extracted_text E p (Some needle) true expected_span 0 = Ret None.
Proof.
  intros Hnl.
  assert (Hclean : no_newline (continuous_text p) = true).
  { unfold continuous_text.
    apply no_newline_replace_two_spaces, no_newline_replace_newline. }
  split; [done|].
  assert (Hne : needle ≠ "") by (intros ->; discriminate Hnl).
  rewrite exact_search_eq by done. unfold Regex.search_literal.
  destruct (Regex.search_literal_from needle (continuous_text p) 0) as [m|] eqn:Hm;
    [|done].
  exfalso.
  assert (Hocc : occurs_ci needle (continuous_text p)).
  { apply (search_literal_from_spec needle (continuous_text p) 0). by rewrite Hm. }
  destruct Hocc as (pre & mid & post & Hs & Hl).
  rewrite Hs, !no_newline_app in Hclean.
  apply andb_true_iff in Hclean as [_ [Hmid _]%andb_true_iff].
  rewrite <- no_newline_lower, Hl, no_newline_lower in Hmid. congruence.
Qed.

Lemma needle_with_newline_not_found_witness :
  let p := Sample.file "a.pdf" None None ∅ "A Study
of Logos" in
  find_match_in_extracted_text Sample.online p (Some "A Study
of Logos") true default_span 0 = Ret None.
Proof.
  intros p.
  apply (needle_with_newline_not_found Sample.online p). reflexivity.
Defined.

(** X9. The normalisation only touches line breaks and doubled spaces: a
    text with neither is searched as it is. *)
Theorem continuous_text_of_clean_text (p : Parser) :
  no_newline (extracted_text p) = true →
  no_double_space (extracted_text p) = true →
  continuous_text p = extracted_text p.
Proof.
  intros Hnl Hsp. unfold continuous_text.
  rewrite (replace_newline_clean _ Hnl). by apply replace_two_spaces_clean.
Qed.

Lemma continuous_text_of_clean_text_witness :
  continuous_text Sample.short_pdf = "lorem ipsum".
Proof. exact (continuous_text_of_clean_text Sample.short_pdf eq_refl eq_refl). Defined.

(** ** The search for a Creative Commons statement *)

Section Catalogue.

Context (E : Env) (p : Parser).

Lemma first_match_cons q queries :
  first_match E p (q :: queries)
  = bind_result (cc_query E p q)
      (λ m, match m with Some _ => Ret m | None => first_match E p queries end).
Proof. by destruct q. Qed.

Lemma first_match_None queries :
  first_match E p queries = Ret None
  ↔ Forall (λ q, cc_query E p q = Ret None) queries.
Proof.
  induction queries as [|q queries IH]; [by split; [constructor|]|].
  rewrite first_match_cons, Forall_cons.
  destruct (cc_query E p q) as [[m|]|e]; cbn [bind_result];
    [split; [done | by intros [? _]] | | split; [done | by intros [? _]]].
  rewrite IH. tauto.
Qed.

Lemma first_match_Some queries m :
  first_match E p queries = Ret (Some m)
  ↔ ∃ before q after,
      queries = (before ++ q :: after)%list
      ∧ Forall (λ q', cc_query E p q' = Ret None) before
      ∧ cc_query E p q = Ret (Some m).
Proof.
  induction queries as [|q queries IH].
  - split; [done|]. intros (before & q & after & Heq & _). by destruct before.
  - rewrite first_match_cons.
    destruct (cc_query E p q) as [[m'|]|e] eqn:Hq; cbn [bind_result].
    + split.
      * intros [= ->]. exists [], q, queries. by repeat split.
      * intros (before & q' & after & Heq & Hbefore & Hq').
        destruct before as [|b before]; cbn [app] in Heq; injection Heq as <- ->.
        -- congruence.
        -- apply Forall_cons in Hbefore as [Hb _]. congruence.
    + rewrite IH. split.
      * intros (before & q' & after & -> & Hbefore & Hq').
        exists (q :: before), q', after. repeat split; [|done]. by constructor.
      * intros (before & q' & after & Heq & Hbefore & Hq').
        destruct before as [|b before]; cbn [app] in Heq; injection Heq as <- ->.
        -- congruence.
        -- apply Forall_cons in Hbefore as [_ Hbefore]. by exists before, q', after.
    + split; [done|].
      intros (before & q' & after & Heq & Hbefore & Hq').
      destruct before as [|b before]; cbn [app] in Heq; injection Heq as <- ->.
      * congruence.
      * apply Forall_cons in Hbefore as [Hb _]. congruence.
Qed.

End Catalogue.

(** X10. [find_cc_statement_in_extracted_text] reports no evidence
    ([None]) exactly when every query of the catalogue, the URL, the long
    name and the short name of every licence, finds nothing. *)
Theorem no_cc_statement_iff_all_miss (E : Env) (p : Parser) :
  find_cc_statement_in_extracted_text E p = Ret None
  ↔ Forall (λ q, cc_query E p q = Ret None) (cc_queries E).
Proof. apply first_match_None. Qed.

(** X11. The first hit of the catalogue wins: the search returns a match
    exactly when some query returns it and every query before it finds
    nothing; no later query is consulted. *)
Theorem first_cc_hit_wins (E : Env) (p : Parser) (m : MatchResult) :
  find_cc_statement_in_extracted_text E p = Ret (Some m)
  ↔ ∃ before q after,
      cc_queries E = (before ++ q :: after)%list
      ∧ Forall (λ q', cc_query E p q' = Ret None) before
      ∧ cc_query E p q = Ret (Some m).
Proof. apply first_match_Some. Qed.

(** ** [test_doi_resolves] *)



(** ** The verdicts of the workflows *)

Lemma outcome_json_full r s (Q : ClassAttrs → Response → Prop) R :
  (∀ resp,
     resp_approve_deposit resp = approve_deposit r →
     resp_sanity_check resp = sanity_check r →
     resp_reason resp = reason r →
     (conf_SMUR resp, conf_AM resp, conf_P resp, conf_VOR resp,
      conf_VOR_oa resp, conf_VOR_pw resp)
     = (smur_prob r # 100, am_prob r # 100, p_prob r # 100,
        (vor_oa_prob r + vor_pw_prob r) # 100, vor_oa_prob r # 100,
        vor_pw_prob r # 100)%Q →
     resp_test_results resp = test_results s →
     Q s resp) →
  outcome (json_response r) s Q R.
Proof. intros H. by apply H. Qed.

Ltac oauto :=
  repeat first
    [ ostep
    | progress cbv beta zeta
    | lazymatch goal with
      | |- outcome (if ?b then _ else _) _ _ _ => destruct b eqn:?
      | |- outcome (match ?x with _ => _ end) _ _ _ => destruct x eqn:?
      | |- match ?x with Ret _ => _ | Raises _ => _ end => destruct x eqn:?
      end ].

Section Verdicts.

Context (E : Env).
Implicit Types (p : Parser) (r : ArtemisResult) (s : ClassAttrs)
  (R : ClassAttrs → exn → Prop).





End Verdicts.



(** ** What a response carries *)

Ltac oall :=
  repeat first
    [ ostep
    | progress cbv beta zeta
    | lazymatch goal with
      | |- outcome (if ?b then _ else _) _ _ _ => destruct b eqn:?
      | |- outcome (match ?x with _ => _ end) _ _ _ => destruct x eqn:?
      | |- match ?x with Ret _ => _ | Raises _ => _ end => destruct x eqn:?
      end ].

(** Solve a goal on the entries of a map built by insertions. *)
Ltac frame :=
  let name := fresh "name" in
  let Hn := fresh "Hn" in
  intros name Hn; cbn [test_results];
  rewrite ?not_elem_of_cons in Hn;
  repeat match goal with H : _ ∧ _ |- _ => destruct H end;
  rewrite ?lookup_insert_ne by congruence; reflexivity.

Lemma writes_only_trans names1 names2 names s1 s2 s3 :
  writes_only names1 s1 s2 → writes_only names2 s2 s3 →
  (∀ name, name ∉ names → (name ∉ names1) ∧ (name ∉ names2)) →
  writes_only names s1 s3.
Proof.
  intros H1 H2 Hn name Hname. destruct (Hn name Hname) as [Hn1 Hn2].
  by rewrite (H2 name Hn2), (H1 name Hn1).
Qed.

Section Records.

Context (E : Env).
Implicit Types (p : Parser) (r : ArtemisResult) (s : ClassAttrs).

Lemma pdf_metadata_tests_records p r s :
  outcome (pdf_metadata_tests E p r) s
    (λ s' r',
       weights r'
       = match extract_publisher_tags_from_file_metadata p with
         | [] => weights r
         | _ => (0, 0, p_prob r, vor_oa_prob r, vor_pw_prob r)%Z
         end
       ∧ writes_only ["test_title_match_in_file_metadata";
                      "extract_publisher_tags_from_file_metadata"] s s'
       ∧ test_results s' !! "test_title_match_in_file_metadata"
         = Some (VTri (test_title_match_in_file_metadata E p "/Title" (9 # 10)))
       ∧ test_results s' !! "extract_publisher_tags_from_file_metadata"
         = Some (VTags (extract_publisher_tags_from_file_metadata p)))
    (λ _ _, True).
Proof.
  unfold pdf_metadata_tests. osteps.
  destruct (extract_publisher_tags_from_file_metadata p) as [|tag tags] eqn:Htags;
    destruct r; rsimpl; osteps; unfold weights; rsimpl;
    (split; [done|]); (split; [frame|]); split;
    cbn [test_results]; by rewrite ?lookup_insert_ne, ?lookup_insert_eq by done.
Qed.

Lemma pdf_text_tests_records p r s :
  outcome (pdf_text_tests E p r) s
    (λ s' r',
       weights r' = weights r
       ∧ writes_only ["test_length_of_extracted_text";
                      "test_title_match_in_extracted_text";
                      "test_valid_doi_in_extracted_text";
                      "find_cc_statement_in_extracted_text"] s s'
       ∧ test_results s' !! "test_length_of_extracted_text"
         = Some (VTri (test_length_of_extracted_text p default_min_length))
       ∧ (∃ t, test_title_match_in_extracted_text E p = Ret t
               ∧ test_results s' !! "test_title_match_in_extracted_text"
                 = Some (VTri t))
       ∧ (∃ cc, find_cc_statement_in_extracted_text E p = Ret cc
                ∧ test_results s' !! "find_cc_statement_in_extracted_text"
                  = Some (VMatch cc))
       ∧ (find_doi_in_extracted_text E p = Ret None →
          test_results s' !! "test_valid_doi_in_extracted_text"
          = test_results s !! "test_valid_doi_in_extracted_text"))
    (λ _ _, True).
Proof.
  unfold pdf_text_tests, test_valid_doi_in_extracted_text. destruct r. oall;
    try exact I; unfold weights; rsimpl;
    (split; [done|]); (split; [frame|]);
    (split; [cbn [test_results];
             by rewrite ?lookup_insert_ne, ?lookup_insert_eq by done|]);
    (split; [eexists; split; [done|]; cbn [test_results];
             by rewrite ?lookup_insert_ne, ?lookup_insert_eq by done|]);
    (split; [eexists; split; [done|]; cbn [test_results];
             by rewrite ?lookup_insert_ne, ?lookup_insert_eq by done|]);
    intros Hnone; try discriminate Hnone; cbn [test_results];
    by rewrite ?lookup_insert_ne by done.
Qed.

Lemma pdf_cermine_tests_records p r s :
  outcome (pdf_cermine_tests E p r) s
    (λ s' r',
       weights r' = weights r
       ∧ writes_only ["test_valid_doi_in_cermine_xml"; "test_title_match_cermxml"] s s')
    (λ _ _, True).
Proof.
  unfold pdf_cermine_tests, test_valid_doi_in_cermine_xml. destruct r. oall;
    try exact I; unfold weights; rsimpl; (split; [done | frame]).
Qed.

Lemma pdf_logo_tests_records p r s :
  outcome (pdf_logo_tests p r) s
    (λ s' r',
       weights r' = weights r
       ∧ writes_only ["test_file_has_image_on_first_page"; "detect_publisher_logos"] s s')
    (λ _ _, True).
Proof.
  unfold pdf_logo_tests. destruct r. rsimpl. osteps.
  destruct (detect_publisher_logos p); rsimpl; osteps;
    unfold refine_by_logos, outcome, weights; rsimpl; (split; [done | frame]).
Qed.

Lemma pdf_decision_records p r s :
  outcome (pdf_decision E p r) s
    (λ s' r', weights r' = weights r ∧ test_results s' = test_results s)
    (λ _ _, True).
Proof.
  unfold pdf_decision, dec_version_lower, insane_reason. destruct r. oall;
    try exact I; unfold weights; rsimpl;
    repeat match goal with |- context [if ?b then _ else _] => destruct b end;
    done.
Qed.

Lemma docx_decision_records p r s :
  outcome (docx_decision p r) s
    (λ s' r', weights r' = weights r ∧ s' = s)
    (λ _ _, True).
Proof.
  unfold docx_decision, dec_version_lower, insane_reason. destruct r. oall;
    try exact I; unfold weights; rsimpl;
    repeat match goal with |- context [if ?b then _ else _] => destruct b end;
    done.
Qed.

End Records.

Ltac opost lem := eapply outcome_post; [apply lem; try done | cbv beta].

(** A literal is not in a list of literals. *)
Ltac notin := apply (bool_decide_unpack _); by vm_compute.

(** A name outside [recorded_names] is outside a part of it. *)
Ltac outside :=
  unfold recorded_names in *; rewrite ?not_elem_of_cons in *;
  repeat match goal with H : _ ∧ _ |- _ => destruct H end;
  repeat split; try assumption; apply not_elem_of_nil.

(** X14. The display confidences of a response do not depend on the
    verdict.  The DOCX workflow reports 50 for the submitted and the
    accepted version and 0 for the others; the PDF workflow reports 25
    for the proof and for the version of record (12.5 for each of its
    kinds), and for the submitted and the accepted version 0 when a
    publisher tag was found and 25 otherwise, also when a Creative Commons
    statement has excluded both from the candidates. *)
Theorem response_confidences (E : Env) (k : file_kind) (p : Parser)
    (s s' : ClassAttrs) (resp : Response) :
  parse E k p s = (s', Ret resp) →
  (conf_SMUR resp, conf_AM resp, conf_P resp, conf_VOR resp,
   conf_VOR_oa resp, conf_VOR_pw resp)
  = match k with
    | Docx => (5000 # 100, 5000 # 100, 0 # 100, 0 # 100, 0 # 100, 0 # 100)%Q
    | Pdf =>
        let w := match extract_publisher_tags_from_file_metadata p with
                 | [] => 2500%Z
                 | _ => 0%Z
                 end in
        (w # 100, w # 100, 2500 # 100, 2500 # 100, 1250 # 100, 1250 # 100)%Q
    end.
Proof.
  revert s' resp. apply outcome_partial. destruct k; cbn [parse].
  - unfold DocxParser_parse. osteps.
    destruct (test_title_match_in_extracted_text E p) as [t|e]; [|done].
    osteps. opost docx_decision_records. intros s1 r1 [Hw _].
    apply outcome_json_full. intros resp _ _ _ Hconf _. rewrite Hconf.
    unfold weights in Hw. rsimpl.
    injection Hw as H1 H2 H3 H4 H5. by rewrite H1, H2, H3, H4, H5.
  - unfold PdfParser_parse. cbv zeta.
    ochain pdf_metadata_tests_records. intros s1 r1 (Hw1 & _).
    ochain pdf_text_tests_records. intros s2 r2 (Hw2 & _).
    ochain pdf_cermine_tests_records. intros s3 r3 (Hw3 & _).
    ochain pdf_logo_tests_records. intros s4 r4 (Hw4 & _).
    ochain pdf_decision_records. intros s5 r5 (Hw5 & _).
    apply outcome_json_full. intros resp _ _ _ Hconf _. rewrite Hconf.
    rewrite Hw4, Hw3, Hw2, Hw1 in Hw5. unfold weights in Hw5. rsimpl.
    destruct (extract_publisher_tags_from_file_metadata p);
      injection Hw5 as H1 H2 H3 H4 H5; by rewrite H1, H2, H3, H4, H5.
Qed.

Lemma response_confidences_witness :
  ∃ s' resp,
    parse Sample.online Pdf Sample.publisher_pdf (initial_attrs Sample.online)
    = (s', Ret resp)
    ∧ (conf_SMUR resp, conf_AM resp, conf_P resp, conf_VOR resp,
       conf_VOR_oa resp, conf_VOR_pw resp)
      = (0 # 100, 0 # 100, 2500 # 100, 2500 # 100, 1250 # 100, 1250 # 100)%Q.
Proof.
  assert (Hrun : ∃ s' resp,
    parse Sample.online Pdf Sample.publisher_pdf (initial_attrs Sample.online)
    = (s', Ret resp)).
  { vm_compute. by eexists _, _. }
  destruct Hrun as (s' & resp & Hrun).
  exists s', resp. split; [exact Hrun|].
  exact (response_confidences _ _ _ _ _ _ Hrun).
Defined.

(** X15. A response carries the shared map of test results as the
    evaluation leaves it: the results of this file's length test and
    title tests are in it; an entry under a name that the workflows never
    write is the one the map held before; and so is the entry of the DOI
    test when that test did not run (DOCX workflow, or no DOI in the
    text), so that the response then reports what an earlier file left
    there. *)
Theorem test_results_retained (E : Env) (k : file_kind) (p : Parser)
    (s s' : ClassAttrs) (resp : Response) :
  parse E k p s = (s', Ret resp) →
  resp_test_results resp = test_results s'
  ∧ resp_test_results resp !! "test_length_of_extracted_text"
    = Some (VTri (test_length_of_extracted_text p default_min_length))
  ∧ resp_test_results resp !! "test_title_match_in_file_metadata"
    = Some (VTri (test_title_match_in_file_metadata E p (title_key k) (9 # 10)))
  ∧ (∃ t, test_title_match_in_extracted_text E p = Ret t
          ∧ resp_test_results resp !! "test_title_match_in_extracted_text"
            = Some (VTri t))
  ∧ (∀ name, name ∉ recorded_names →
             resp_test_results resp !! name = test_results s !! name)
  ∧ (k = Docx ∨ find_doi_in_extracted_text E p = Ret None →
     resp_test_results resp !! "test_valid_doi_in_extracted_text"
     = test_results s !! "test_valid_doi_in_extracted_text").
Proof.
  intros Hrun.
  assert (Hs' : resp_test_results resp = test_results s'
          ∧ ∃ s0 r0, json_response r0 s0 = (s', Ret resp)).
  { revert s' resp Hrun. apply outcome_partial.
    destruct k; cbn [parse].
    - unfold DocxParser_parse. osteps.
      destruct (test_title_match_in_extracted_text E p) as [t|e]; [|done].
      osteps.
      match goal with |- outcome ?m ?s0 _ _ =>
        unfold outcome at 1; destruct (m s0) as [? [?|?]]; [|done] end.
      unfold outcome. cbn. split; [done|]. by eexists _, _.
    - unfold PdfParser_parse. cbv zeta.
      repeat (apply outcome_bind;
              match goal with |- outcome ?m ?s0 _ _ =>
                unfold outcome at 1; destruct (m s0) as [? [?|?]]; [|done] end).
      unfold outcome. cbn. split; [done|]. by eexists _, _. }
  destruct Hs' as [Hresp _]. split; [done|]. rewrite Hresp. clear Hresp.
  revert s' resp Hrun. apply outcome_partial. destruct k; cbn [parse title_key].
  - unfold DocxParser_parse. osteps.
    destruct (test_title_match_in_extracted_text E p) as [t|e] eqn:Ht; [|done].
    osteps. opost docx_decision_records. intros s1 r1 [_ ->].
    apply outcome_json_full. intros resp _ _ _ _ _. cbn [test_results].
    split; [by rewrite ?lookup_insert_ne, ?lookup_insert_eq by done|].
    split; [by rewrite ?lookup_insert_ne, ?lookup_insert_eq by done|].
    split; [exists t; split; [done|];
            by rewrite ?lookup_insert_ne, ?lookup_insert_eq by done|].
    split.
    + intros name Hn. unfold recorded_names in Hn.
      rewrite ?not_elem_of_cons in Hn.
      repeat match goal with H : _ ∧ _ |- _ => destruct H end.
      by rewrite ?lookup_insert_ne by congruence.
    + intros _. by rewrite ?lookup_insert_ne by done.
  - unfold PdfParser_parse. cbv zeta.
    ochain pdf_metadata_tests_records. intros s1 r1 (_ & Hf1 & Htm & _).
    ochain pdf_text_tests_records.
    intros s2 r2 (_ & Hf2 & Hlen & (t & Ht & Htt) & _ & Hdoi).
    ochain pdf_cermine_tests_records. intros s3 r3 (_ & Hf3).
    ochain pdf_logo_tests_records. intros s4 r4 (_ & Hf4).
    ochain pdf_decision_records. intros s5 r5 (_ & Hf5).
    apply outcome_json_full. intros resp _ _ _ _ _. rewrite Hf5.
    split; [rewrite Hf4, Hf3 by notin; exact Hlen|].
    split; [rewrite Hf4, Hf3, Hf2 by notin; exact Htm|].
    split; [exists t; split; [done|]; rewrite Hf4, Hf3 by notin; exact Htt|].
    split.
    + intros name Hn.
      rewrite Hf4, Hf3, Hf2, Hf1 by (clear -Hn; outside). done.
    + intros [?|Hnone]; [done|].
      rewrite Hf4, Hf3 by notin. rewrite (Hdoi Hnone). by rewrite Hf1 by notin.
Qed.

Lemma test_results_retained_witness :
  ∃ s' resp,
    parse Sample.online Docx Sample.manuscript_docx
      (attrs_after Sample.online [(Pdf, Sample.publisher_pdf)])
    = (s', Ret resp)
    ∧ resp_test_results resp !! "test_length_of_extracted_text"
      = Some (VTri (Some true))
    ∧ resp_test_results resp !! "test_valid_doi_in_extracted_text"
      = Some (VTri (Some true)).
Proof.
  assert (Hrun : ∃ s' resp,
    parse Sample.online Docx Sample.manuscript_docx
      (attrs_after Sample.online [(Pdf, Sample.publisher_pdf)])
    = (s', Ret resp)).
  { vm_compute. by eexists _, _. }
  destruct Hrun as (s' & resp & Hrun).
  destruct (test_results_retained _ _ _ _ _ _ Hrun)
    as (_ & Hlen & _ & _ & _ & Hstale).
  exists s', resp. split; [exact Hrun|]. split.
  - rewrite Hlen. by vm_compute.
  - rewrite Hstale by by left. by vm_compute.
Defined.

(** ** The branches of the decisions *)










(** ** [VersionDetector.detect] *)

Lemma lower_dotted (ext : string) :
  ext = "" ∨ PyStr.startswith "." ext = true →
  PyStr.lower ext = "" ∨ PyStr.startswith "." (PyStr.lower ext) = true.
Proof.
  intros [->|Hdot]; [by left|]. right.
  destruct ext as [|c ext]; [done|]. cbn [PyStr.startswith] in Hdot.
  apply andb_true_iff in Hdot as [Hc _]. apply Ascii.eqb_eq in Hc. by subst c.
Qed.

(** X20. [detect] answers [("fail", "... is not a supported file
    extension")] exactly for the files whose lower-cased extension is
    neither [.pdf] nor [.docx], without touching the class attributes; the
    extensions of the other editable formats ([.doc], [.odt], [.txt], ...)
    are recognised and rejected under the name [editable_document]. *)
Theorem detect_unsupported (E : Env) (vd : VersionDetector) (s : ClassAttrs) :
  vd_ext vd = "" ∨ PyStr.startswith "." (vd_ext vd) = true →
  (file_ext vd ≠ ".pdf" → file_ext vd ≠ ".docx" →
   detect E vd s
   = (s, Ret (NotSupported "fail"
                (check_extension vd ++ " is not a supported file extension")))
   ∧ (file_ext vd ∈ editable_extensions → check_extension vd = "editable_document"))
  ∧ (file_ext vd = ".pdf" ∨ file_ext vd = ".docx" →
     ∀ s' status error_msg,
       detect E vd s ≠ (s', Ret (NotSupported status error_msg))).
Proof.
  intros Hdot. apply lower_dotted in Hdot. fold (file_ext vd) in Hdot. split.
  - intros Hpdf Hdocx.
    assert (Hext : check_extension vd ≠ "docx" ∧ check_extension vd ≠ "pdf").
    { unfold check_extension.
      destruct (String.eqb_spec (file_ext vd) ".pdf"); [done|].
      destruct (String.eqb_spec (file_ext vd) ".docx"); [done|].
      destruct (str_in (file_ext vd) editable_extensions); [done|].
      destruct Hdot as [->|Hd]; [done|].
      split; intros Heq; rewrite Heq in Hd; discriminate Hd. }
    destruct Hext as [Hnd Hnp]. split.
    + unfold detect. cbv zeta.
      destruct (String.eqb_spec (check_extension vd) "docx"); [done|].
      destruct (String.eqb_spec (check_extension vd) "pdf"); [done|]. done.
    + intros Hin. unfold check_extension.
      destruct (String.eqb_spec (file_ext vd) ".pdf"); [done|].
      destruct (String.eqb_spec (file_ext vd) ".docx"); [done|].
      apply str_in_spec in Hin. by rewrite Hin.
  - intros Hk s' status error_msg. unfold detect, check_extension. cbv zeta.
    destruct Hk as [->| ->]; cbn [String.eqb Ascii.eqb Bool.eqb]; unfold bind.
    + by destruct (PdfParser_parse E (vd_file vd) s) as [s1 [r|e]].
    + by destruct (DocxParser_parse E (vd_file vd) s) as [s1 [r|e]].
Qed.

Lemma detect_unsupported_witness :
  let vd := {| vd_ext := ".ODT"; vd_file := Sample.manuscript_docx |} in
  detect Sample.online vd (initial_attrs Sample.online)
  = (initial_attrs Sample.online,
     Ret (NotSupported "fail" "editable_document is not a supported file extension")).
Proof.
  intros vd.
  destruct (detect_unsupported Sample.online vd (initial_attrs Sample.online))
    as [Hfail _].
  - by right.
  - destruct Hfail as [Hrun Hname]; [discriminate | discriminate |].
    rewrite Hrun, Hname; [reflexivity|].
    apply (bool_decide_unpack _). by vm_compute.
Defined.

(** ** [PdfParser.parse_cermxml] *)

Section Cermine.

Import Cermxml.

Lemma overwrite_last (elements : list element) (v : option string) :
  overwrite elements v
  = match last elements with Some c => text c | None => v end.
Proof.
  unfold overwrite. revert v.
  induction elements as [|c elements IH]; intros v; [done|].
  cbn [fold_left]. rewrite IH, last_cons. by destruct (last elements).
Qed.

Lemma fold_doi_last (elements : list element) (doi : option string) :
  fold_left
    (λ doi c_id,
       if bool_decide (attrib c_id !! "pub-id-type" = Some "doi")
       then text c_id else doi)
    elements doi
  = match last (List.filter
                  (λ c, bool_decide (attrib c !! "pub-id-type" = Some "doi"))
                  elements) with
    | Some c => text c
    | None => doi
    end.
Proof.
  revert doi. induction elements as [|c elements IH]; intros doi; [done|].
  cbn [fold_left List.filter]. rewrite IH.
  destruct (bool_decide (attrib c !! "pub-id-type" = Some "doi")); [|done].
  rewrite last_cons. by destruct (last _).
Qed.

End Cermine.

(** X21. In [parse_cermxml] the last element wins: of the [article-id]
    elements of type [doi] anywhere in the tree, of the [article-title]
    elements below the first [front] child of the root, and of the
    [journal-title] elements anywhere, the last one in document order
    gives the value; where there is none, the attribute keeps its value.
    The call then marks the parser as parsed and returns the three
    values. *)
Theorem parse_cermxml_last_wins (root front : Cermxml.element) (st : Cermxml.state) :
  Cermxml.find "front" root = Some front →
  let pick (elements : list Cermxml.element) (v : option string) :=
    match last elements with Some c => Cermxml.text c | None => v end in
  let doi :=
    pick (List.filter
            (λ c, bool_decide (Cermxml.attrib c !! "pub-id-type" = Some "doi"))
            (Cermxml.iter "article-id" root))
         (Cermxml.cerm_doi st) in
  let title := pick (Cermxml.iter "article-title" front) (Cermxml.cerm_title st) in
  let journal :=
    pick (Cermxml.iter "journal-title" root) (Cermxml.cerm_journal_title st) in
  Cermxml.parse_cermxml (Some root) st
  = (Cermxml.mkState true doi title journal, Ret (Some (doi, title, journal))).
Proof.
  intros Hfront pick doi title journal. unfold Cermxml.parse_cermxml.
  rewrite Hfront. cbn [Cermxml.cerm_title Cermxml.cerm_journal_title].
  unfold Cermxml.extract_doi. rewrite fold_doi_last, !overwrite_last. done.
Qed.

Lemma parse_cermxml_last_wins_witness :
  let id (kind value : string) :=
    Cermxml.Element "article-id" (<["pub-id-type" := kind]> ∅) (Some value) [] in
  let title (value : string) :=
    Cermxml.Element "article-title" ∅ (Some value) [] in
  let front :=
    Cermxml.Element "front" ∅ None
      [ id "doi" "10.1000/1"; id "pmid" "77"; title "The Paper" ] in
  let back :=
    Cermxml.Element "back" ∅ None [ id "doi" "10.1000/2"; title "A Reference" ] in
  let root := Cermxml.Element "article" ∅ None [front; back] in
  Cermxml.parse_cermxml (Some root) Cermxml.initial
  = (Cermxml.mkState true (Some "10.1000/2") (Some "The Paper") None,
     Ret (Some (Some "10.1000/2", Some "The Paper", None))).
Proof.
  intros id title front back root.
  rewrite (parse_cermxml_last_wins root front Cermxml.initial) by reflexivity.
  by vm_compute.
Defined.

(** X22. For a tree whose root has no [front] child [parse_cermxml]
    raises [AttributeError] after the DOI loop has run: the DOI is
    already stored, the titles are not, and the parser is not marked as
    parsed. *)
Theorem parse_cermxml_without_front (root : Cermxml.element) (st : Cermxml.state) :
  Forall (λ c, Cermxml.tag c ≠ "front") (Cermxml.children root) →
  ∃ st',
    Cermxml.parse_cermxml (Some root) st = (st', Raises AttributeError)
    ∧ Cermxml.cerm_ran_and_parsed st' = Cermxml.cerm_ran_and_parsed st
    ∧ Cermxml.cerm_doi st' = Cermxml.extract_doi root (Cermxml.cerm_doi st)
    ∧ Cermxml.cerm_title st' = Cermxml.cerm_title st
    ∧ Cermxml.cerm_journal_title st' = Cermxml.cerm_journal_title st.
Proof.
  intros Hnone.
  assert (Hfind : Cermxml.find "front" root = None).
  { unfold Cermxml.find. induction Hnone as [|c cs Hc _ IH]; [done|].
    cbn [List.find]. by destruct (String.eqb_spec (Cermxml.tag c) "front"). }
  unfold Cermxml.parse_cermxml. rewrite Hfind. eexists. split; [reflexivity|]. done.
Qed.

Lemma parse_cermxml_without_front_witness :
  let root :=
    Cermxml.Element "article" ∅ None
      [ Cermxml.Element "article-id" (<["pub-id-type" := "doi"]> ∅)
          (Some "10.1000/1") [] ] in
  Cermxml.parse_cermxml (Some root) Cermxml.initial
  = (Cermxml.mkState false (Some "10.1000/1") None None, Raises AttributeError).
Proof.
  intros root.
  destruct (parse_cermxml_without_front root Cermxml.initial)
    as (st' & Hrun & _).
  - repeat constructor. discriminate.
  - rewrite Hrun. f_equal.
    assert (Hst : fst (Cermxml.parse_cermxml (Some root) Cermxml.initial) = st')
      by by rewrite Hrun.
    rewrite <- Hst. by vm_compute.
Defined.

(** ** [PdfParser.detect_publisher_logos] *)

Section LogoScan.

Context (test_hash_match : PublisherLogo → string → nat → bool).
Context (db : list PublisherLogo).
Implicit Types (i : string) (images : list string) (d : nat)
  (detected : list PublisherLogo).

Lemma scan_db_all entries i d detected :
  Logos.scan_db test_hash_match entries i d false detected
  = (detected ++ List.filter (λ logo, test_hash_match logo i d) entries)%list.
Proof.
  revert detected. induction entries as [|logo entries IH]; intros detected.
  - by rewrite app_nil_r.
  - cbn [Logos.scan_db List.filter].
    destruct (test_hash_match logo i d); rewrite IH; [|done].
    by rewrite <- app_assoc.
Qed.

Lemma scan_db_first entries i d :
  Logos.scan_db test_hash_match entries i d true []
  = take 1 (List.filter (λ logo, test_hash_match logo i d) entries).
Proof.
  induction entries as [|logo entries IH]; [done|].
  cbn [Logos.scan_db List.filter].
  destruct (test_hash_match logo i d); [done | apply IH].
Qed.

Lemma scan_images_all images d detected :
  Logos.scan_images test_hash_match db images d false detected
  = (detected
     ++ flat_map (λ i, List.filter (λ logo, test_hash_match logo i d) db) images)%list.
Proof.
  revert detected. induction images as [|i images IH]; intros detected.
  - by rewrite app_nil_r.
  - cbn [Logos.scan_images flat_map]. rewrite andb_false_r, IH, scan_db_all.
    by rewrite <- app_assoc.
Qed.

Lemma scan_images_first images d :
  Logos.scan_images test_hash_match db images d true []
  = take 1 (flat_map (λ i, List.filter (λ logo, test_hash_match logo i d) db) images).
Proof.
  induction images as [|i images IH]; [done|].
  cbn [Logos.scan_images flat_map]. rewrite scan_db_first.
  destruct (List.filter (λ logo, test_hash_match logo i d) db) as [|logo logos];
    [apply IH | done].
Qed.

End LogoScan.

(** X23. [detect_publisher_logos] lists, image by image, the records of
    the database whose hash matches the image, in the order of the
    database; with [stop_at_first_match] it returns the first of them
    alone (or nothing). *)
Theorem detect_publisher_logos_spec
    (test_hash_match : PublisherLogo → string → nat → bool)
    (db : list PublisherLogo) (images : list string)
    (max_hash_difference : nat) (stop_at_first_match : bool) :
  let matches :=
    flat_map
      (λ i, List.filter (λ logo, test_hash_match logo i max_hash_difference) db)
      images in
  Logos.detect_publisher_logos test_hash_match db images max_hash_difference
    stop_at_first_match
  = if stop_at_first_match then take 1 matches else matches.
Proof.
  unfold Logos.detect_publisher_logos. destruct stop_at_first_match.
  - apply scan_images_first.
  - by rewrite scan_images_all.
Qed.

(** ** The class attributes over a run *)

Lemma exclude_uncorroborated_sublist (suggested : list string) (i : nat)
    (pv : list string) :
  exclude_uncorroborated suggested i pv `sublist_of` pv.
Proof.
  revert pv. induction i as [|i IH]; intros pv; cbn [exclude_uncorroborated];
    destruct (pv !! _) as [v|]; try done;
    destruct (str_in v suggested); try done;
    try apply exclude_from_sublist; try apply IH.
  etrans; [apply IH | apply exclude_from_sublist].
Qed.

Section Monotone.

Context {A B : Type}.

Lemma monotone_bind (m : M A) (k : A → M B) :
  monotone m → (∀ a, monotone (k a)) → monotone (bind m k).
Proof.
  intros Hm Hk s. unfold bind. specialize (Hm s).
  destruct (m s) as [s1 [a|e]]; [|done].
  destruct Hm as [Hpv Hdom]. destruct (Hk a s1) as [Hpv' Hdom'].
  split; [by etrans | by etrans].
Qed.

Lemma monotone_ret (a : A) : monotone (ret a).
Proof. by intros s. Qed.

Lemma monotone_raise e : monotone (raise (A := A) e).
Proof. by intros s. Qed.

Lemma monotone_lift (x : result A) : monotone (lift x).
Proof. by intros s. Qed.

End Monotone.

Lemma monotone_append name v : monotone (append_test_result name v).
Proof.
  intros s. split; [done|]. cbn [fst append_test_result test_results].
  rewrite dom_insert. apply union_subseteq_r.
Qed.

Lemma monotone_exclude e_list : monotone (exclude_versions e_list).
Proof. intros s. split; [apply exclude_from_sublist | done]. Qed.

Lemma monotone_get : monotone get_possible_versions.
Proof. by intros s. Qed.

Lemma monotone_json r : monotone (json_response r).
Proof. by intros s. Qed.

Lemma monotone_refine logos : monotone (refine_by_logos logos).
Proof. intros s. split; [apply exclude_uncorroborated_sublist | done]. Qed.

Ltac monotone :=
  repeat first
    [ apply monotone_bind; [|intros ?]
    | apply monotone_ret | apply monotone_raise | apply monotone_lift
    | apply monotone_append | apply monotone_exclude | apply monotone_get
    | apply monotone_json | apply monotone_refine
    | lazymatch goal with
      | |- monotone (if ?b then _ else _) => destruct b
      | |- monotone (match ?x with _ => _ end) => destruct x
      end
    | progress cbv beta zeta ].

Lemma parse_monotone (E : Env) (k : file_kind) (p : Parser) : monotone (parse E k p).
Proof.
  destruct k; cbn [parse].
  - unfold DocxParser_parse, docx_decision, dec_version_lower. monotone.
  - unfold PdfParser_parse, pdf_metadata_tests, pdf_text_tests, pdf_cermine_tests,
      pdf_logo_tests, pdf_decision, dec_version_lower. monotone.
Qed.

(** X24. Over a run of any files, whatever their verdicts and whichever
    evaluations raise, the shared candidate list only shrinks, keeping its
    order, and the shared map of test results only gains names: no
    evaluation restores a version that an earlier one excluded, and none
    removes an entry that an earlier one recorded. *)
Theorem class_attributes_monotone (E : Env) (files : list (file_kind * Parser))
    (s : ClassAttrs) :
  possible_versions (fst (evaluate_all E files s)) `sublist_of` possible_versions s
  ∧ dom (test_results s) ⊆ dom (test_results (fst (evaluate_all E files s))).
Proof.
  revert s. induction files as [|[k p] files IH]; intros s; [done|].
  cbn [evaluate_all]. destruct (parse_monotone E k p s) as [Hpv Hdom].
  destruct (parse E k p s) as [s1 x]. destruct (IH s1) as [Hpv' Hdom'].
  destruct (evaluate_all E files s1) as [s2 xs]. cbn [fst] in *.
  split; by etrans.
Qed.

(** X25. Every DOCX evaluation, approved or not, returning or raising,
    leaves the shared candidate list as it was with [P] and [VOR]
    excluded; on a list without repetition neither is a candidate for any
    later file. *)
Theorem docx_excludes_publisher_versions (E : Env) (p : Parser) (s : ClassAttrs) :
  possible_versions (fst (parse E Docx p s))
  = exclude_from [c_P E; c_VOR E] (possible_versions s)
  ∧ (NoDup (possible_versions s) →
     (c_P E ∉ possible_versions (fst (parse E Docx p s)))
     ∧ (c_VOR E ∉ possible_versions (fst (parse E Docx p s)))).
Proof.
  assert (Hpv : possible_versions (fst (parse E Docx p s))
                = exclude_from [c_P E; c_VOR E] (possible_versions s)).
  { cbn [parse].
    assert (Hout : outcome (DocxParser_parse E p) s
              (λ s' _, possible_versions s'
                       = exclude_from [c_P E; c_VOR E] (possible_versions s))
              (λ s' _, possible_versions s'
                       = exclude_from [c_P E; c_VOR E] (possible_versions s))).
    { unfold DocxParser_parse, docx_decision, dec_version_lower, insane_reason.
      oall; done. }
    unfold outcome in Hout.
    by destruct (DocxParser_parse E p s) as [s1 [resp|e]]. }
  split; [done|]. intros Hnd. rewrite Hpv.
  split; apply exclude_from_excluded; try done; [left | right; left].
Qed.

Lemma docx_excludes_publisher_versions_witness :
  possible_versions
    (fst (parse Sample.online Docx Sample.empty_file (initial_attrs Sample.online)))
  = ["submitted manuscript under review"; "accepted manuscript"]
  ∧ ("proof" ∉ possible_versions
       (fst (parse Sample.online Docx Sample.empty_file (initial_attrs Sample.online)))).
Proof.
  destruct (docx_excludes_publisher_versions Sample.online Sample.empty_file
              (initial_attrs Sample.online)) as [Hpv Hnot].
  split; [rewrite Hpv; by vm_compute|].
  apply Hnot. apply (bool_decide_unpack _). by vm_compute.
Defined.
